(** * Recipe Buddy: query understanding, matching, similarity and meal plans

    A shallow embedding of the core of the Recipe Buddy system
    ([core/query_parser.py], [core/recipe_matcher.py],
    [core/similarity_engine.py], [core/meal_planner.py],
    [config/vocabulary.py], [scripts/migrate_to_postgres.py]) and the
    properties of its specification, stated over that embedding.

    Conventions of the embedding.
    - Python [str] is [string]; the texts the system handles are modelled
      as byte strings and [str.lower()] lower-cases the ASCII letters.
    - Python [float] nutrition values are rationals ([Q]): the code only
      adds, multiplies, divides and compares them.  The raw score of the
      database mode is a sum of whole numbers and is kept in [Z].
    - A nullable database column is an [option]; an SQL condition is a
      three-valued boolean ([option bool]) and a row is kept by a filter
      only when the condition is true.
    - Python dictionaries keyed by nutrient name are [gmap string _].
    - Random choices, [round] and the external text-similarity library
      are parameters of the functions that use them. *)

From Stdlib Require Import ZArith QArith List String Ascii Bool Lia Permutation Sorted.
From stdpp Require Import gmap strings.
Import ListNotations.

#[local] Open Scope string_scope.
#[local] Open Scope Z_scope.

(* ===================================================================== *)
(** * Part I: definitions                                                 *)
(* ===================================================================== *)

(** ** Python string and list primitives *)

Module Py.

(** [c.isupper()] on an ASCII letter. *)
Definition is_upper (c : ascii) : bool :=
  let n := nat_of_ascii c in (65 <=? n)%nat && (n <=? 90)%nat.

Definition lower_char (c : ascii) : ascii :=
  if is_upper c then ascii_of_nat (nat_of_ascii c + 32) else c.

(** [s.lower()] *)
Fixpoint lower (s : string) : string :=
  match s with
  | EmptyString => EmptyString
  | String c s' => String (lower_char c) (lower s')
  end.

(** [s.startswith(p)] *)
Fixpoint startswith (p s : string) : bool :=
  match p, s with
  | EmptyString, _ => true
  | String _ _, EmptyString => false
  | String a p', String b s' => Ascii.eqb a b && startswith p' s'
  end.

(** [needle in hay] for two strings. *)
Fixpoint contains (needle hay : string) : bool :=
  startswith needle hay ||
  match hay with
  | EmptyString => false
  | String _ hay' => contains needle hay'
  end.

(** [hay.find(needle)], the index of the first occurrence. *)
Fixpoint find (needle hay : string) : option nat :=
  if startswith needle hay then Some 0%nat
  else match hay with
       | EmptyString => None
       | String _ hay' => option_map S (find needle hay')
       end.

(** The slice [s[a:b]] for [0 <= a]. *)
Fixpoint drop (n : nat) (s : string) : string :=
  match n, s with
  | O, _ => s
  | S n', String _ s' => drop n' s'
  | S _, EmptyString => EmptyString
  end.

Fixpoint take (n : nat) (s : string) : string :=
  match n, s with
  | S n', String c s' => String c (take n' s')
  | _, _ => EmptyString
  end.

Definition slice (a b : nat) (s : string) : string := take (b - a) (drop a s).

(** The characters [str.split()] separates on. *)
Definition is_space (c : ascii) : bool :=
  let n := nat_of_ascii c in
  ((9 <=? n)%nat && (n <=? 13)%nat) || ((28 <=? n)%nat && (n <=? 32)%nat).

(** [s.split()]: the maximal runs of non-blank characters; [cur] is the
    run being read. *)
Fixpoint split_go (s cur : string) : list string :=
  match s with
  | EmptyString => if String.eqb cur "" then [] else [cur]
  | String c s' =>
      if is_space c
      then (if String.eqb cur "" then split_go s' "" else cur :: split_go s' "")
      else split_go s' (cur +:+ String c "")
  end.

Definition split (s : string) : list string := split_go s "".

(** [sep.join(parts)] *)
Fixpoint join (sep : string) (parts : list string) : string :=
  match parts with
  | [] => ""
  | [p] => p
  | p :: rest => p +:+ sep +:+ join sep rest
  end.

(** [x in l] and [l.index(x)] on a list of strings; [index] raises
    [ValueError] when [x] is absent, which is [None] here. *)
Definition mem (x : string) (l : list string) : bool :=
  existsb (String.eqb x) l.

Fixpoint index (x : string) (l : list string) : option nat :=
  match l with
  | [] => None
  | y :: l' => if String.eqb y x then Some 0%nat else option_map S (index x l')
  end.

(** Truthiness of an optional string: [None] and [''] are falsy. *)
Definition truthy (o : option string) : option string :=
  match o with
  | Some s => if String.eqb s "" then None else Some s
  | None => None
  end.

(** [o or ''] *)
Definition or_empty (o : option string) : string := default "" o.

(** [len(s)] *)
Definition len (s : string) : nat := String.length s.

End Py.

(** ** The relational Recipe Source: SQL conditions *)

Module Sql.

(** A condition evaluates to true, false or NULL ([None]). *)
Definition tbool : Type := option bool.

Definition and_ (a b : tbool) : tbool :=
  match a, b with
  | Some false, _ | _, Some false => Some false
  | Some true, Some true => Some true
  | _, _ => None
  end.

Definition or_ (a b : tbool) : tbool :=
  match a, b with
  | Some true, _ | _, Some true => Some true
  | Some false, Some false => Some false
  | _, _ => None
  end.

Definition not_ (a : tbool) : tbool := option_map negb a.

(** [query.filter(c)] keeps a row only when [c] is true. *)
Definition holds (c : tbool) : bool :=
  match c with Some true => true | _ => false end.

(** [s LIKE p]: [%] matches any run of characters, [_] any single
    character and a backslash takes the next pattern character
    literally.  The database refuses a pattern that ends in a backslash;
    no row matches it here. *)
Fixpoint like (p s : string) {struct p} : bool :=
  match p with
  | EmptyString => match s with EmptyString => true | _ => false end
  | String c p' =>
      if Ascii.eqb c "%" then
        (fix any (s : string) : bool :=
           like p' s ||
           match s with
           | EmptyString => false
           | String _ s' => any s'
           end) s
      else if Ascii.eqb c "_" then
        match s with
        | String _ s' => like p' s'
        | EmptyString => false
        end
      else if Ascii.eqb c "\" then
        match p' with
        | String c2 p'' =>
            match s with
            | String d s' => Ascii.eqb c2 d && like p'' s'
            | EmptyString => false
            end
        | EmptyString => false
        end
      else
        match s with
        | String d s' => Ascii.eqb c d && like p' s'
        | EmptyString => false
        end
  end.

(** [func.lower(column).like(f"%{needle}%")] on a nullable text column. *)
Definition lower_like (column : option string) (needle : string) : tbool :=
  option_map (fun s => like ("%" +:+ needle +:+ "%") (Py.lower s)) column.

(** The characters [LIKE] does not take literally. *)
Definition is_meta (c : ascii) : bool :=
  Ascii.eqb c "%" || Ascii.eqb c "_" || Ascii.eqb c "\".

Fixpoint plain (s : string) : bool :=
  match s with
  | EmptyString => true
  | String c s' => negb (is_meta c) && plain s'
  end.

(** [column >= v], [column <= v], [column > v], [column IS NOT NULL] on a
    nullable numeric column. *)
Definition ge (column : option Q) (v : Q) : tbool :=
  option_map (fun x => Qle_bool v x) column.

Definition le (column : option Q) (v : Q) : tbool :=
  option_map (fun x => Qle_bool x v) column.

Definition gt (column : option Q) (v : Q) : tbool :=
  option_map (fun x => negb (Qle_bool x v)) column.

Definition isnot_none {A} (column : option A) : tbool :=
  Some (match column with Some _ => true | None => false end).

End Sql.

(** ** [core/models.py]: the recipe row *)

Module Models.

Record Recipe : Type := {
  id : Z;
  title : string;
  description : option string;
  ingredients : option (list string);
  directions : option (list string);
  categories : option (list string);
  calories : option Q;
  protein : option Q;
  fat : option Q;
  sodium : option Q;
  sugar : option Q;
  saturates : option Q;
  search_text : option string
}.

(** [getattr(Recipe, nutrient, None)] for the numeric nutrition columns;
    the names the query parser produces are among them. *)
Definition column (nutrient : string) : option (Recipe -> option Q) :=
  if String.eqb nutrient "calories" then Some calories
  else if String.eqb nutrient "protein" then Some protein
  else if String.eqb nutrient "fat" then Some fat
  else if String.eqb nutrient "sodium" then Some sodium
  else if String.eqb nutrient "sugar" then Some sugar
  else if String.eqb nutrient "saturates" then Some saturates
  else None.

(** [x or 0] on a nullable number. *)
Definition or_zero (x : option Q) : Q := default 0%Q x.

End Models.

(** ** The parsed query *)

(** The dictionary [{'min': .., 'max': ..}] of one nutrient: each key is
    present or absent. *)
Record Bounds : Type := { b_min : option Q; b_max : option Q }.

Definition no_bounds : Bounds := {| b_min := None; b_max := None |}.

Record ParsedQuery : Type := {
  original_query : string;
  corrected_query : option string;
  spelling_corrections : list (string * string);
  pq_ingredients : list string;
  excluded_ingredients : list string;
  pq_categories : list string;
  meal_type : option string;
  nutrition : gmap string Bounds;
  dish_name : option string
}.

(** ** [core/recipe_matcher.py], database mode *)

Module RecipeMatcher.

Import Models.

(** STEP 1 of [_search_database]: the condition added for one excluded
    ingredient. *)
Definition exclusion_condition (r : Recipe) (exc : string) : Sql.tbool :=
  let exc_lower := Py.lower exc in
  Sql.not_
    (Sql.and_
       (Sql.lower_like (search_text r) exc_lower)
       (Sql.or_
          (Sql.lower_like (Some (title r)) exc_lower)
          (Sql.lower_like (search_text r) exc_lower))).

(** STEP 2: the conditions added for one entry of the nutrition
    mapping. *)
Definition nutrition_condition (r : Recipe) (entry : string * Bounds) : bool :=
  let '(nutrient, constraints) := entry in
  match column nutrient with
  | None => true
  | Some col =>
      Sql.holds (Sql.isnot_none (col r))
      && match b_min constraints with
         | Some v => Sql.holds (Sql.ge (col r) v)
         | None => true
         end
      && match b_max constraints with
         | Some v => Sql.holds (Sql.le (col r) v)
         | None => true
         end
  end.

(** STEPS 3 and 4: the condition added for a required ingredient, and
    for the dish name. *)
Definition presence_condition (r : Recipe) (term : string) : Sql.tbool :=
  let pattern := Py.lower term in
  Sql.or_
    (Sql.lower_like (Some (title r)) pattern)
    (Sql.lower_like (search_text r) pattern).

Definition nutrition_filter (nutrition_req : gmap string Bounds) (r : Recipe)
    : bool :=
  forallb (nutrition_condition r) (map_to_list nutrition_req).

(** All the filters [_search_database] adds to the query. *)
Definition hard_filters (pq : ParsedQuery) (r : Recipe) : bool :=
  forallb (fun exc => Sql.holds (exclusion_condition r exc))
          (excluded_ingredients pq)
  && nutrition_filter (nutrition pq) r
  && forallb (fun ing => Sql.holds (presence_condition r ing))
             (pq_ingredients pq)
  && match Py.truthy (dish_name pq) with
     | Some dish => Sql.holds (presence_condition r dish)
     | None => true
     end.

(** *** [_calculate_recipe_score], section by section *)

(** DISH NAME SCORING *)
Definition dish_name_scoring (title_lower search_text_lower : string)
    (dish : option string) : Z :=
  match Py.truthy dish with
  | None => 0
  | Some dish_name =>
      let dish_lower := Py.lower dish_name in
      if String.eqb title_lower dish_lower then 100
      else if Py.contains (" " +:+ dish_lower +:+ " ")
                          (" " +:+ title_lower +:+ " ") then
        let title_words := Py.split title_lower in
        match Py.index dish_lower title_words with
        | Some position =>
            if (position =? 0)%nat then 60
            else if (position =? length title_words - 1)%nat then 65
            else 55
        | None => 50
        end
      else if Py.contains dish_lower title_lower then 35
      else if Py.contains dish_lower search_text_lower then 20
      else 0
  end.

(** REQUIRED INGREDIENTS SCORING: the points of one ingredient. *)
Definition ingredient_points (title_lower search_text_lower : string)
    (ingredient : string) : Z :=
  let ing_lower := Py.lower ingredient in
  (if Py.contains ing_lower title_lower then
     let title_words := Py.split title_lower in
     15 + match Py.index ing_lower title_words with
          | Some position =>
              if (position =? 0)%nat then 10
              else if (position =? 1)%nat then 8
              else if (position =? 2)%nat then 5
              else 2
          | None => 5
          end
   else 0)
  + (if Py.contains ing_lower search_text_lower then 10 else 0).

Definition sumZ (l : list Z) : Z := fold_right Z.add 0 l.

Definition required_ingredients_scoring (title_lower search_text_lower : string)
    (required : list string) : Z :=
  sumZ (map (ingredient_points title_lower search_text_lower) required).

(** The proximity bonus of one ingredient, given that the dish is one of
    the title words. *)
Definition proximity_points (title_words : list string) (dish_lower ing : string)
    : Z :=
  let ing_lower := Py.lower ing in
  match Py.index dish_lower title_words, Py.index ing_lower title_words with
  | Some dish_idx, Some ing_idx =>
      let distance := Z.abs (Z.of_nat dish_idx - Z.of_nat ing_idx) in
      if distance <=? 2 then 10 else 0
  | _, _ => 0
  end.

(** COMBO BONUS *)
Definition combo_bonus (title_lower : string) (dish : option string)
    (required : list string) : Z :=
  match Py.truthy dish, required with
  | Some dish_name, _ :: _ =>
      let dish_lower := Py.lower dish_name in
      let ingredients_in_title :=
        length (List.filter (fun ing => Py.contains (Py.lower ing) title_lower)
                       required) in
      if Py.contains dish_lower title_lower && (0 <? ingredients_in_title)%nat
      then
        let title_words := Py.split title_lower in
        20 + (if Py.mem dish_lower title_words
              then sumZ (map (proximity_points title_words dish_lower) required)
              else 0)
      else 0
  | _, _ => 0
  end.

(** CATEGORY SCORING *)
Definition category_scoring (search_text_lower : string) (cats : list string)
    : Z :=
  sumZ (map (fun category =>
               if Py.contains (Py.lower category) search_text_lower
               then 12 else 0) cats).

(** MEAL TYPE SCORING *)
Definition meal_type_scoring (search_text_lower : string) (meal : option string)
    : Z :=
  match Py.truthy meal with
  | Some m => if Py.contains (Py.lower m) search_text_lower then 15 else 0
  | None => 0
  end.

(** NUTRITION SCORING *)
Definition nutrition_scoring (nutrition_req : gmap string Bounds) : Z :=
  20 * Z.of_nat (size nutrition_req).

Definition calculate_recipe_score (r : Recipe) (pq : ParsedQuery) : Z :=
  let title_lower := Py.lower (title r) in
  let search_text_lower := Py.lower (Py.or_empty (search_text r)) in
  dish_name_scoring title_lower search_text_lower (dish_name pq)
  + required_ingredients_scoring title_lower search_text_lower
      (pq_ingredients pq)
  + combo_bonus title_lower (dish_name pq) (pq_ingredients pq)
  + category_scoring search_text_lower (pq_categories pq)
  + meal_type_scoring search_text_lower (meal_type pq)
  + nutrition_scoring (nutrition pq).

(** A returned match: the recipe and its raw points; the published
    [score] and [rule_score] are the points divided by 100. *)
Record ScoredMatch : Type := {
  sm_recipe : Recipe;
  sm_points : Z
}.

Definition sm_score (m : ScoredMatch) : Q := inject_Z (sm_points m) / 100.

(** [scored_recipes.sort(key=score, reverse=True)]: a stable sort, the
    matches of equal score keep the order of retrieval. *)
Fixpoint insert_desc (x : ScoredMatch) (l : list ScoredMatch)
    : list ScoredMatch :=
  match l with
  | [] => [x]
  | y :: l' =>
      if sm_points y <=? sm_points x then x :: y :: l'
      else y :: insert_desc x l'
  end.

Definition sort_desc (l : list ScoredMatch) : list ScoredMatch :=
  fold_right insert_desc [] l.

(** STEP 5: only positive scores are kept. *)
Definition score_candidates (pq : ParsedQuery) (candidates : list Recipe)
    : list ScoredMatch :=
  flat_map (fun r =>
              let score := calculate_recipe_score r pq in
              if 0 <? score then [{| sm_recipe := r; sm_points := score |}]
              else []) candidates.

(** [_search_database] over the rows [db] of the recipes table, in the
    order the database returns them. *)
Definition search_database (db : list Recipe) (pq : ParsedQuery)
    (max_results offset : nat) : list ScoredMatch :=
  let candidates := firstn (max_results * 10) (List.filter (hard_filters pq) db) in
  let scored_recipes := sort_desc (score_candidates pq candidates) in
  firstn max_results (skipn offset scored_recipes).

End RecipeMatcher.

(** ** [core/recipe_matcher.py], in-memory mode *)

Module MemoryMatcher.

#[local] Open Scope Q_scope.

(** A recipe of the in-memory collection ([data_loader._slim_recipe]):
    [m_values] holds the entries of the dictionary that [float()]
    accepts; an absent key, [None] and a value that is not a number all
    read as [None]. *)
Record MemRecipe : Type := {
  m_title : string;
  m_desc : string;
  m_ingredients : list string;
  m_directions : list string;
  m_categories : list string;
  m_values : gmap string Q
}.

Definition nonempty {A} (l : list A) : bool :=
  match l with [] => false | _ :: _ => true end.

(** [_recipe_to_text] *)
Definition recipe_to_text (r : MemRecipe) : string :=
  let parts :=
    ([m_title r]
     ++ (if nonempty (m_ingredients r)
         then [Py.join " " (m_ingredients r)] else [])
     ++ (if nonempty (m_directions r)
         then [Py.join " " (m_directions r)] else [])
     ++ (if nonempty (m_categories r)
         then [Py.join " " (m_categories r)] else []))%list in
  Py.lower (Py.join " " parts).

(** [repr(s)] and [str(l)] for a list of strings, as [str(categories)]
    needs them. *)
Definition dquote : ascii := ascii_of_nat 34.
Definition squote : ascii := ascii_of_nat 39.

Definition hex_digit (n : nat) : ascii :=
  if (n <? 10)%nat then ascii_of_nat (48 + n) else ascii_of_nat (87 + n).

Definition repr_char (quote c : ascii) : string :=
  let n := nat_of_ascii c in
  if Ascii.eqb c "\" then "\\"
  else if Ascii.eqb c quote then String "\" (String c "")
  else if (n =? 9)%nat then "\t"
  else if (n =? 10)%nat then "\n"
  else if (n =? 13)%nat then "\r"
  else if (n <? 32)%nat || (n =? 127)%nat
  then String "\" (String "x" (String (hex_digit (n / 16))
                                      (String (hex_digit (n mod 16)) "")))
  else String c "".

Fixpoint repr_body (quote : ascii) (s : string) : string :=
  match s with
  | EmptyString => ""
  | String c s' => repr_char quote c +:+ repr_body quote s'
  end.

Definition repr (s : string) : string :=
  let quote :=
    if Py.contains (String squote "") s && negb (Py.contains (String dquote "") s)
    then dquote else squote in
  String quote (repr_body quote s +:+ String quote "").

Definition str_list (l : list string) : string :=
  "[" +:+ Py.join ", " (map repr l) +:+ "]".

Definition Qlt_bool (a b : Q) : bool := negb (Qle_bool b a).

Definition count {A} (p : A -> bool) (l : list A) : nat := length (List.filter p l).

Definition ratio (matched total : nat) : Q :=
  inject_Z (Z.of_nat matched) / inject_Z (Z.of_nat total).

(** The body of the loop of [_calculate_rule_scores]: the score of one
    recipe before normalisation. *)
Definition rule_score (pq : ParsedQuery) (recipe : MemRecipe) : Q :=
  let recipe_text := Py.lower (recipe_to_text recipe) in
  let recipe_title := Py.lower (m_title recipe) in
  (match Py.truthy (dish_name pq) with
   | Some d =>
       let dish := Py.lower d in
       if Py.contains dish recipe_title then 4 # 10
       else if Py.contains dish recipe_text then 2 # 10
       else 0
   | None => 0
   end)
  + (if nonempty (pq_ingredients pq) then
       let matched :=
         count (fun ing => Py.contains (Py.lower ing) recipe_text)
               (pq_ingredients pq) in
       (3 # 10) * ratio matched (length (pq_ingredients pq))
     else 0)
  + (if nonempty (pq_categories pq) then
       let recipe_cats := Py.lower (str_list (m_categories recipe)) in
       let matched :=
         count (fun cat => Py.contains cat recipe_cats
                           || Py.contains cat recipe_text)
               (pq_categories pq) in
       (2 # 10) * ratio matched (length (pq_categories pq))
     else 0)
  + (match Py.truthy (meal_type pq) with
     | Some m =>
         if Py.contains (Py.lower m) recipe_text then 1 # 10 else 0
     | None => 0
     end).

(** [np.max] of a non-empty array; it raises on an empty one. *)
Definition Qmax (a b : Q) : Q := if Qle_bool a b then b else a.

Definition np_max (l : list Q) : option Q :=
  match l with
  | [] => None
  | x :: l' => Some (fold_left Qmax l' x)
  end.

(** [_calculate_rule_scores]; [None] is the [ValueError] of [np.max] on
    an empty collection. *)
Definition calculate_rule_scores (recipes : list MemRecipe) (pq : ParsedQuery)
    : option (list Q) :=
  let scores := map (rule_score pq) recipes in
  match np_max scores with
  | None => None
  | Some top =>
      Some (if Qlt_bool 0 top then map (fun s => s / top) scores else scores)
  end.

(** [_nutrition_matches] *)
Definition nutrient_matches (recipe : MemRecipe) (entry : string * Bounds)
    : bool :=
  let '(nutrient, constraints) := entry in
  match m_values recipe !! nutrient with
  | None => true
  | Some recipe_value =>
      match b_min constraints with
      | Some v => negb (Qlt_bool recipe_value v)
      | None => true
      end
      && match b_max constraints with
         | Some v => negb (Qlt_bool v recipe_value)
         | None => true
         end
  end.

Definition nutrition_matches (recipe : MemRecipe)
    (nutrition_req : gmap string Bounds) : bool :=
  forallb (nutrient_matches recipe) (map_to_list nutrition_req).

(** [_apply_constraints]: the 0/1 mask, one entry per recipe. *)
Definition constraint_mask (pq : ParsedQuery) (recipe : MemRecipe) : bool :=
  let recipe_text := Py.lower (recipe_to_text recipe) in
  negb (existsb (fun exc_ing => Py.contains (Py.lower exc_ing) recipe_text)
                (excluded_ingredients pq))
  && nutrition_matches recipe (nutrition pq).

Definition apply_constraints (recipes : list MemRecipe) (pq : ParsedQuery)
    : list Q :=
  map (fun r => if constraint_mask pq r then 1 else 0) recipes.

(** One entry of the result list. *)
Record MemMatch : Type := {
  mm_id : nat;
  mm_recipe : MemRecipe;
  mm_score : Q;
  mm_semantic_score : Q;
  mm_rule_score : Q
}.

Definition RULE_BASED_WEIGHT : Q := 7 # 10.
Definition TFIDF_WEIGHT : Q := 3 # 10.

Definition at_ (l : list Q) (i : nat) : Q := nth i l 0.

(** The query string handed to the text index when none is given. *)
Definition build_query (pq : ParsedQuery) : string :=
  let query_parts :=
    ((match Py.truthy (dish_name pq) with Some d => [d] | None => [] end)
     ++ pq_ingredients pq ++ pq_categories pq)%list in
  if nonempty query_parts then Py.join " " query_parts else "recipe".

Section Search.

(** [np.argsort], ascending; the order it gives to equal scores is its
    own. *)
Variable argsort : list Q -> list nat.

(** The fitted text index, when there is one: it maps the lower-cased
    query to the cosine similarity of every recipe. *)
Variable tfidf : option (string -> list Q).

(** The loop over [top_indices], with its [continue] and [break]. *)
Fixpoint collect (recipes : list MemRecipe)
    (hybrid_scores semantic_scores rule_scores : list Q) (use_tfidf : bool)
    (max_results : nat) (top_indices : list nat) (results : list MemMatch)
    : list MemMatch :=
  match top_indices with
  | [] => results
  | idx :: rest =>
      if Qle_bool (at_ hybrid_scores idx) 0
      then collect recipes hybrid_scores semantic_scores rule_scores
             use_tfidf max_results rest results
      else
        match nth_error recipes idx with
        | None => results
        | Some recipe =>
            let result :=
              {| mm_id := idx;
                 mm_recipe := recipe;
                 mm_score := at_ hybrid_scores idx;
                 mm_semantic_score :=
                   if use_tfidf then at_ semantic_scores idx else 0;
                 mm_rule_score := at_ rule_scores idx |} in
            let results' := (results ++ [result])%list in
            if (max_results <=? length results')%nat then results'
            else collect recipes hybrid_scores semantic_scores rule_scores
                   use_tfidf max_results rest results'
        end
  end.

(** [_search_memory]; [None] when [np.max] raises. *)
Definition search_memory (recipes : list MemRecipe) (pq : ParsedQuery)
    (max_results : nat) (use_tfidf : bool) (query : option string)
    : option (list MemMatch) :=
  let query := match query with Some q => q | None => build_query pq end in
  let indexed :=
    match tfidf with Some index => use_tfidf | None => false end in
  let semantic_scores :=
    match tfidf with
    | Some index =>
        if use_tfidf then index (Py.lower query)
        else map (fun _ => 0) recipes
    | None => map (fun _ => 0) recipes
    end in
  match calculate_rule_scores recipes pq with
  | None => None
  | Some rule_scores =>
      let hybrid_scores :=
        if indexed
        then map (fun i => RULE_BASED_WEIGHT * at_ rule_scores i
                           + TFIDF_WEIGHT * at_ semantic_scores i)
                 (seq 0 (length recipes))
        else rule_scores in
      let constraint_mask := apply_constraints recipes pq in
      let hybrid_scores :=
        map (fun i => at_ hybrid_scores i * at_ constraint_mask i)
            (seq 0 (length recipes)) in
      let top_indices :=
        firstn (max_results * 3) (rev (argsort hybrid_scores)) in
      Some (collect recipes hybrid_scores semantic_scores rule_scores
              use_tfidf max_results top_indices [])
  end.

End Search.

(** An [argsort] for running examples: a stable insertion sort of the
    indices. *)
Fixpoint insert_idx (scores : list Q) (i : nat) (l : list nat) : list nat :=
  match l with
  | [] => [i]
  | j :: l' =>
      if Qle_bool (at_ scores i) (at_ scores j) then i :: j :: l'
      else j :: insert_idx scores i l'
  end.

Definition stable_argsort (scores : list Q) : list nat :=
  fold_right (insert_idx scores) [] (seq 0 (length scores)).

End MemoryMatcher.

(** ** [config/vocabulary.py] *)

Module Vocabulary.

(** The set [NEGATION_WORDS]; only membership tests read it. *)
Definition NEGATION_WORDS : list string :=
  ["without"; "no"; "avoid"; "exclude"; "not"; "don't"; "dont"; "doesn't";
   "doesnt"; "never"; "none"; "free"; "skip"; "minus"; "except"; "hold";
   "leave out"; "but no"; "and no"; "does not"; "do not"].

Definition MEAL_TYPES : list (string * list string) :=
  [("breakfast", ["breakfast"; "brunch"; "morning"]);
   ("lunch", ["lunch"; "midday"; "noon"]);
   ("dinner", ["dinner"; "supper"; "evening"]);
   ("dessert", ["dessert"; "sweet"; "cake"; "cookie"; "pie"; "pudding"]);
   ("snack", ["snack"; "appetizer"; "starter"]);
   ("drink", ["drink"; "beverage"; "smoothie"; "juice"; "shake"])].

Definition FOOD_CATEGORIES : list (string * list string) :=
  [("vegetarian", ["vegetarian"; "veggie"; "meatless"]);
   ("vegan", ["vegan"; "plant-based"]);
   ("gluten-free", ["gluten-free"; "gluten free"; "no gluten"]);
   ("dairy-free", ["dairy-free"; "dairy free"; "no dairy"]);
   ("low-carb", ["low-carb"; "low carb"; "keto"]);
   ("healthy", ["healthy"; "light"; "nutritious"]);
   ("quick", ["quick"; "easy"; "fast"; "simple"]);
   ("spicy", ["spicy"; "hot"; "chili"]);
   ("creamy", ["creamy"; "rich"]);
   ("grilled", ["grilled"; "barbecue"; "bbq"]);
   ("baked", ["baked"; "oven"; "roasted"]);
   ("fried", ["fried"; "pan-fried"; "deep-fried"]);
   ("pasta", ["pasta"; "spaghetti"; "noodles"]);
   ("salad", ["salad"; "greens"]);
   ("soup", ["soup"; "stew"; "chowder"]);
   ("curry", ["curry"; "masala"]);
   ("rice", ["rice"; "risotto"; "pilaf"]);
   ("seafood", ["fish"; "seafood"; "shrimp"]);
   ("chicken", ["chicken"; "poultry"]);
   ("beef", ["beef"; "steak"]);
   ("lamb", ["lamb"; "mutton"]);
   ("mexican", ["mexican"; "taco"; "burrito"]);
   ("italian", ["italian"; "pasta"; "pizza"]);
   ("asian", ["asian"; "chinese"; "thai"; "japanese"]);
   ("indian", ["indian"; "tandoori"; "curry"]);
   ("mediterranean", ["mediterranean"; "greek"])].

Definition COMMON_INGREDIENTS : list string :=
  ["chicken"; "chicken breast"; "chicken thigh"; "beef"; "ground beef";
   "steak"; "lamb"; "turkey"; "fish"; "salmon"; "tuna"; "shrimp"; "prawns";
   "crab"; "lobster"; "scallops"; "cod"; "tilapia"; "tofu"; "tempeh";
   "tomato"; "tomatoes"; "onion"; "onions"; "garlic"; "potato"; "potatoes";
   "carrot"; "carrots"; "celery"; "cucumber"; "zucchini"; "squash";
   "bell pepper"; "peppers"; "jalape√±o"; "eggplant"; "broccoli";
   "cauliflower"; "spinach"; "kale"; "lettuce"; "cabbage"; "mushrooms";
   "corn"; "peas"; "green beans"; "asparagus"; "avocado"; "beets"; "beans";
   "black beans"; "kidney beans"; "chickpeas"; "lentils"; "rice"; "pasta";
   "noodles"; "bread"; "flour"; "oats"; "quinoa"; "cheese"; "cheddar";
   "mozzarella"; "parmesan"; "feta"; "cream cheese"; "milk"; "cream";
   "butter"; "yogurt"; "egg"; "eggs"; "apple"; "banana"; "orange"; "lemon";
   "lime"; "strawberry"; "blueberry"; "mango"; "pineapple"; "peach";
   "grape"; "coconut"; "almonds"; "walnuts"; "peanuts"; "cashews";
   "pistachios"; "pecans"; "sunflower seeds"; "sesame seeds"; "chia seeds";
   "salt"; "pepper"; "basil"; "oregano"; "thyme"; "rosemary"; "parsley";
   "cilantro"; "mint"; "dill"; "cinnamon"; "cumin"; "paprika"; "turmeric";
   "ginger"; "garlic powder"; "onion powder"; "chili powder";
   "curry powder"; "olive oil"; "vegetable oil"; "coconut oil";
   "sesame oil"; "soy sauce"; "vinegar"; "honey"; "maple syrup"; "mustard";
   "ketchup"; "mayonnaise"; "hot sauce"; "sriracha"; "sugar";
   "brown sugar"; "vanilla"; "chocolate"; "cocoa"; "baking powder";
   "baking soda"; "yeast"].

Definition DISH_NAMES : list string :=
  ["pizza"; "pasta"; "lasagna"; "spaghetti"; "risotto"; "carbonara";
   "taco"; "burrito"; "enchilada"; "quesadilla"; "nachos"; "fajita";
   "sushi"; "ramen"; "pad thai"; "stir fry"; "fried rice"; "curry";
   "tikka masala"; "biryani"; "tandoori"; "korma"; "vindaloo"; "burger";
   "sandwich"; "wrap"; "salad"; "soup"; "stew"; "chili"; "omelette";
   "frittata"; "pancake"; "waffle"; "smoothie"; "cake"; "pie"; "cookie";
   "brownie"; "muffin"; "cheesecake"; "falafel"; "hummus"; "shawarma";
   "kebab"; "gyro"; "paella"; "gumbo"; "jambalaya"; "casserole"; "pot pie"].

End Vocabulary.

(** ** The regular expressions of the parser

    The patterns of [query_parser.py] use literals, character classes,
    greedy repetition of a class, alternation, optional parts, capture
    groups and the word boundary; [run] matches them by backtracking,
    left alternative and longest repetition first, as [re] does. *)

Module Re.

Inductive re : Type :=
| Lit (s : string)
| Cls (p : ascii -> bool)
| Many (p : ascii -> bool)
| Seq (r1 r2 : re)
| Alt (r1 r2 : re)
| Opt (r : re)
| Grp (n : nat) (r : re)
| Bnd.

Definition captures : Type := list (nat * string).

(** [\d], [\s] and [\w]; a byte of a multi-byte character counts as a
    letter. *)
Definition digit (c : ascii) : bool :=
  let n := nat_of_ascii c in (48 <=? n)%nat && (n <=? 57)%nat.

Definition space (c : ascii) : bool := Py.is_space c.

Definition word (c : ascii) : bool :=
  let n := nat_of_ascii c in
  digit c
  || ((65 <=? n)%nat && (n <=? 90)%nat)
  || ((97 <=? n)%nat && (n <=? 122)%nat)
  || (n =? 95)%nat
  || (128 <=? n)%nat.

Definition space_or_dash (c : ascii) : bool := space c || Ascii.eqb c "-".

Definition is_word (o : option ascii) : bool :=
  match o with Some c => word c | None => false end.

Definition head (s : string) : option ascii :=
  match s with String c _ => Some c | EmptyString => None end.

Definition same_char (icase : bool) (a b : ascii) : bool :=
  if icase then Ascii.eqb (Py.lower_char a) (Py.lower_char b)
  else Ascii.eqb a b.

(** Reads the literal [l] at the head of [s]. *)
Fixpoint eat (icase : bool) (l : string) (prev : option ascii) (s : string)
    : option (option ascii * string) :=
  match l with
  | EmptyString => Some (prev, s)
  | String a l' =>
      match s with
      | String b s' =>
          if same_char icase a b then eat icase l' (Some b) s' else None
      | EmptyString => None
      end
  end.

(** [run icase r prev s caps k]: match [r] at the head of [s], where
    [prev] is the character before it, then continue with [k]. *)
Fixpoint run {R : Type} (icase : bool) (r : re) (prev : option ascii)
    (s : string) (caps : captures)
    (k : option ascii -> string -> captures -> option R) {struct r}
    : option R :=
  match r with
  | Lit l =>
      match eat icase l prev s with
      | Some (prev', s') => k prev' s' caps
      | None => None
      end
  | Cls p =>
      match s with
      | String c s' => if p c then k (Some c) s' caps else None
      | EmptyString => None
      end
  | Many p =>
      (fix many (prev : option ascii) (s : string) {struct s} : option R :=
         match
           match s with
           | String c s' => if p c then many (Some c) s' else None
           | EmptyString => None
           end
         with
         | Some res => Some res
         | None => k prev s caps
         end) prev s
  | Seq r1 r2 =>
      run icase r1 prev s caps
        (fun prev' s' caps' => run icase r2 prev' s' caps' k)
  | Alt r1 r2 =>
      match run icase r1 prev s caps k with
      | Some res => Some res
      | None => run icase r2 prev s caps k
      end
  | Opt r1 =>
      match run icase r1 prev s caps k with
      | Some res => Some res
      | None => k prev s caps
      end
  | Grp n r1 =>
      run icase r1 prev s caps
        (fun prev' s' caps' =>
           k prev' s'
             ((n, Py.take (String.length s - String.length s') s) :: caps'))
  | Bnd =>
      if xorb (is_word prev) (is_word (head s)) then k prev s caps else None
  end.

(** One match object: its groups. *)
Definition group (n : nat) (m : captures) : string :=
  match List.find (fun e => (fst e =? n)%nat) m with
  | Some e => snd e
  | None => ""
  end.

(** [re.finditer]: the non-overlapping matches, leftmost first.  Every
    step consumes a character, so [fuel] never runs out when it starts
    above the length of the text. *)
Fixpoint finditer_go (fuel : nat) (icase : bool) (r : re)
    (prev : option ascii) (s : string) : list captures :=
  match fuel with
  | O => []
  | S fuel' =>
      match run icase r prev s [] (fun p s' c => Some (c, s', p)) with
      | Some (caps, s', prev') =>
          if (String.length s' <? String.length s)%nat
          then caps :: finditer_go fuel' icase r prev' s'
          else caps :: match s with
                       | String c s1 => finditer_go fuel' icase r (Some c) s1
                       | EmptyString => []
                       end
      | None =>
          match s with
          | String c s1 => finditer_go fuel' icase r (Some c) s1
          | EmptyString => []
          end
      end
  end.

Definition finditer (icase : bool) (r : re) (s : string) : list captures :=
  finditer_go (S (String.length s)) icase r None s.

(** Shorthands for writing patterns. *)
Definition plus (p : ascii -> bool) : re := Seq (Cls p) (Many p).

Fixpoint seqs (l : list re) : re :=
  match l with
  | [] => Lit ""
  | [r] => r
  | r :: l' => Seq r (seqs l')
  end.

Fixpoint alts (l : list re) : re :=
  match l with
  | [] => Lit ""
  | [r] => r
  | r :: l' => Alt r (alts l')
  end.

(** [int(s)] for a run of digits. *)
Fixpoint int_go (acc : Z) (s : string) : Z :=
  match s with
  | EmptyString => acc
  | String c s' => int_go (10 * acc + Z.of_nat (nat_of_ascii c - 48)) s'
  end.

Definition int (s : string) : Z := int_go 0 s.

(** [s.strip()] *)
Fixpoint lstrip (s : string) : string :=
  match s with
  | String c s' => if Py.is_space c then lstrip s' else s
  | EmptyString => EmptyString
  end.

Fixpoint rstrip (s : string) : string :=
  match s with
  | EmptyString => EmptyString
  | String c s' =>
      match rstrip s' with
      | EmptyString => if Py.is_space c then EmptyString else String c EmptyString
      | t => String c t
      end
  end.

Definition strip (s : string) : string := rstrip (lstrip s).

End Re.

(** ** [core/query_parser.py] *)

Module QueryParser.

Import Vocabulary.
Import Re.

(** [_extract_dish_name] *)
Definition extract_dish_name (query : string) : option string :=
  List.find (fun dish => Py.contains dish query) DISH_NAMES.

(** [_extract_meal_type] *)
Definition extract_meal_type (query : string) : option string :=
  option_map fst
    (List.find (fun entry => existsb (fun keyword => Py.contains keyword query)
                                     (snd entry)) MEAL_TYPES).

(** [_extract_categories] *)
Definition extract_categories (query : string) : list string :=
  map fst
    (List.filter (fun entry => existsb (fun keyword => Py.contains keyword query)
                                  (snd entry)) FOOD_CATEGORIES).

(** *** [_extract_ingredients] *)

Definition skip_words : list string :=
  (["meal"; "recipe"; "dish"; "food"; "calorie"; "calories"; "protein";
    "quick"; "easy"; "healthy"; "high"; "low"; "breakfast"; "lunch";
    "dinner"; "vegetarian"; "vegan"; "want"; "need"; "find"; "make"]
   ++ DISH_NAMES)%list.

(** [(\w+(?:\s+\w+)?)], the captured phrase of one or two words. *)
Definition phrase : re :=
  Grp 1 (Seq (plus word) (Opt (Seq (plus space) (plus word)))).

Definition negation_patterns : list re :=
  [ seqs [alts [seqs [Lit "doesn"; Opt (Lit "'"); Lit "t"];
                seqs [Lit "does"; Many space; Lit "not"];
                Lit "dont"];
          plus space;
          alts [Lit "have"; Lit "include"; Lit "contain"; Lit "want";
                Lit "use"; Lit "need"];
          plus space; phrase];
    seqs [alts [seqs [Lit "don"; Opt (Lit "'"); Lit "t"];
                seqs [Lit "do"; Many space; Lit "not"]];
          plus space;
          alts [Lit "want"; Lit "use"; Lit "add"; Lit "include"; Lit "need"];
          plus space; phrase];
    seqs [alts [Lit "but"; Lit "and"]; plus space; Lit "no"; plus space;
          phrase];
    seqs [Lit "without"; plus space; phrase];
    seqs [Bnd; Lit "no"; plus space; phrase];
    seqs [Lit "avoid"; Opt (Lit "ing"); plus space; phrase];
    seqs [Lit "exclud"; alts [Lit "e"; Lit "ing"]; plus space; phrase];
    seqs [Grp 1 (plus word); Cls space_or_dash; Lit "free"; Bnd];
    seqs [Lit "skip"; Opt (Lit "ping"); plus space; phrase];
    seqs [Lit "hold"; plus space; Opt (Seq (Lit "the") (plus space)); phrase];
    seqs [Lit "minus"; plus space; phrase];
    seqs [Lit "leave"; plus space; Lit "out"; plus space; phrase];
    seqs [Lit "no"; Opt (Lit "t"); plus space; alts [Lit "any"; Lit "the"];
          plus space; phrase] ].

(** The phrases the negation patterns capture, in the order the two
    outer loops meet them: [match.group(1).strip().lower()]. *)
Definition excluded_items (query : string) : list string :=
  flat_map (fun pattern =>
              map (fun m => Py.lower (strip (group 1 m)))
                  (finditer true pattern query))
           negation_patterns.

(** The two tests of the innermost loop, for one captured phrase and one
    ingredient. *)
Definition resolves (excluded_item : string) (excluded : list string)
    (ing : string) : bool :=
  (Py.contains excluded_item ing || Py.contains ing excluded_item)
  && (negb (Py.mem ing excluded) && negb (Py.mem ing skip_words)).

(** The innermost loop: one captured phrase against the ingredient
    list. *)
Definition resolve_item (excluded_item : string) (excluded : list string)
    : list string :=
  fold_left
    (fun excluded ing =>
       if resolves excluded_item excluded ing
       then (excluded ++ [ing])%list else excluded)
    COMMON_INGREDIENTS excluded.

Definition find_excluded (items : list string) : list string :=
  fold_left (fun excluded item => resolve_item item excluded) items [].

(** The negation window of an ingredient found in the query. *)
Definition negation_context (query ingredient : string) : string :=
  let ing_pos := default 0%nat (Py.find ingredient query) in
  Py.lower (Py.slice (ing_pos - 30) ing_pos query).

Definition is_negated (query : string) (excluded : list string)
    (ingredient : string) : bool :=
  existsb (fun neg => Py.contains neg (negation_context query ingredient))
          NEGATION_WORDS
  || Py.mem ingredient excluded.

(** The tests of the inclusion loop for one ingredient. *)
Definition includes (query : string) (excluded included : list string)
    (ingredient : string) : bool :=
  (Py.contains ingredient query && negb (Py.mem ingredient DISH_NAMES))
  && (negb (is_negated query excluded ingredient)
      && negb (Py.mem ingredient included)).

Definition find_included (query : string) (excluded : list string)
    : list string :=
  fold_left
    (fun included ingredient =>
       if includes query excluded included ingredient
       then (included ++ [ingredient])%list else included)
    COMMON_INGREDIENTS [].

(** The body of [_extract_ingredients] once the patterns have been
    run. *)
Definition ingredients_of_items (query : string) (items : list string)
    : list string * list string :=
  let excluded := find_excluded items in
  let included := find_included query excluded in
  (firstn 10 included, firstn 10 excluded).

Definition extract_ingredients (query : string) : list string * list string :=
  ingredients_of_items query (excluded_items query).

(** *** [_extract_nutrition] *)

Inductive bound_kind : Type := Min | Max.

(** [nutrition[nutrient] = {constraint_type: value}] *)
Definition assign (nutrient : string) (kind : bound_kind) (value : Q)
    (nutrition : gmap string Bounds) : gmap string Bounds :=
  <[nutrient :=
      match kind with
      | Min => {| b_min := Some value; b_max := None |}
      | Max => {| b_min := None; b_max := Some value |}
      end]> nutrition.

(** [nutrition.setdefault(nutrient, {})[constraint_type] = value] *)
Definition setdefault_bound (nutrient : string) (kind : bound_kind)
    (value : Q) (nutrition : gmap string Bounds) : gmap string Bounds :=
  let current := default no_bounds (nutrition !! nutrient) in
  <[nutrient :=
      match kind with
      | Min => {| b_min := Some value; b_max := b_max current |}
      | Max => {| b_min := b_min current; b_max := Some value |}
      end]> nutrition.

Definition grams : re :=
  seqs [Many space; Opt (alts [Seq (Lit "gram") (Opt (Lit "s")); Lit "g"]);
        Many space; Opt (Seq (Lit "of") (plus space));
        Grp 2 (alts [Lit "protein"; Lit "fat"; Lit "sodium"])].

Definition cals : re :=
  seqs [Many space;
        Grp 2 (alts [Seq (Lit "calorie") (Opt (Lit "s")); Lit "cal"])].

Definition patterns : list (re * bound_kind) :=
  [ (seqs [Lit "at least "; Grp 1 (plus digit); grams], Min);
    (seqs [Lit "at least "; Grp 1 (plus digit); cals], Min);
    (seqs [alts [Lit "more than"; Lit "over"]; Many space;
           Grp 1 (plus digit); grams], Min);
    (seqs [alts [Lit "less than"; Lit "under"]; Many space;
           Grp 1 (plus digit); grams], Max);
    (seqs [alts [Lit "less than"; Lit "under"]; Many space;
           Grp 1 (plus digit); cals], Max) ].

(** The numeric constraints: every match assigns its nutrient afresh. *)
Definition numeric_constraints (query : string) : gmap string Bounds :=
  fold_left
    (fun nutrition entry =>
       let '(pattern, constraint_type) := entry in
       fold_left
         (fun nutrition m =>
            let value := inject_Z (int (group 1 m)) in
            let nutrient := Py.lower (group 2 m) in
            let nutrient :=
              if Py.contains "calorie" nutrient || Py.contains "cal" nutrient
              then "calories" else nutrient in
            assign nutrient constraint_type value nutrition)
         (finditer false pattern query) nutrition)
    patterns ∅.

Definition any_in (phrases : list string) (query : string) : bool :=
  existsb (fun p => Py.contains p query) phrases.

(** The modifier-based constraints, in the order of the source. *)
Definition modifiers (query : string)
    : list (bool * (string * bound_kind * Q)) :=
  [ (any_in ["high protein"; "high-protein"; "protein rich"] query,
     ("protein", Min, 15%Q));
    (any_in ["high calorie"; "high-calorie"; "calorie rich"] query,
     ("calories", Min, 400%Q));
    (any_in ["high fat"; "high-fat"] query, ("fat", Min, 15%Q));
    (any_in ["low protein"; "low-protein"] query, ("protein", Max, 10%Q));
    (any_in ["low fat"; "low-fat"] query, ("fat", Max, 10%Q));
    (any_in ["low calorie"; "low-calorie"] query
     || Py.mem "light" (Py.split query), ("calories", Max, 300%Q));
    (any_in ["low sodium"; "low-sodium"; "low salt"] query,
     ("sodium", Max, 400%Q));
    (any_in ["low sugar"; "low-sugar"; "sugar free"] query,
     ("sugar", Max, 5%Q)) ].

Definition apply_modifier (nutrition : gmap string Bounds)
    (m : bool * (string * bound_kind * Q)) : gmap string Bounds :=
  let '(fires, (nutrient, kind, value)) := m in
  if fires then setdefault_bound nutrient kind value nutrition else nutrition.

Definition apply_modifiers (query : string) (nutrition : gmap string Bounds)
    : gmap string Bounds :=
  fold_left apply_modifier (modifiers query) nutrition.

Definition extract_nutrition (query : string) : gmap string Bounds :=
  apply_modifiers query (numeric_constraints query).

(** *** [parse] *)

Section Parse.

(** [SpellCorrector.correct], an external collaborator. *)
Variable correct : string -> string * list (string * string).

Definition corrected (query : string) (correct_spelling : bool)
    : string * list (string * string) :=
  if correct_spelling then correct query else (query, []).

(** The text the extraction steps read. *)
Definition parsed_text (query : string) (correct_spelling : bool) : string :=
  Py.lower (fst (corrected query correct_spelling)).

Definition parse (query : string) (correct_spelling : bool) : ParsedQuery :=
  let original := query in
  let '(query, corrections) := corrected query correct_spelling in
  let query_lower := Py.lower query in
  let '(included, excluded) := extract_ingredients query_lower in
  {| original_query := original;
     corrected_query :=
       match corrections with [] => None | _ :: _ => Some query end;
     spelling_corrections := corrections;
     pq_ingredients := included;
     excluded_ingredients := excluded;
     pq_categories := extract_categories query_lower;
     meal_type := extract_meal_type query_lower;
     nutrition := extract_nutrition query_lower;
     dish_name := extract_dish_name query_lower |}.

End Parse.

End QueryParser.

(** ** [core/similarity_engine.py] *)

Module SimilarityEngine.

Import Models.

#[local] Open Scope Q_scope.

Definition first_n {A} (n : nat) (o : option (list A)) : list A :=
  firstn n (default [] o).

(** [list(set(l))] keeps one copy of each element. *)
Fixpoint dedup (l : list string) : list string :=
  match l with
  | [] => []
  | x :: l' => if Py.mem x l' then dedup l' else x :: dedup l'
  end.

Definition starts_with_digit (w : string) : bool :=
  match w with String c _ => Re.digit c | EmptyString => false end.

(** The search patterns drawn from the first five ingredients of the
    target: at most two words each, so never more than ten. *)
Definition ingredient_patterns (target : Recipe) : list string :=
  let target_ingredients := first_n 5 (ingredients target) in
  firstn 10
    (dedup
       (flat_map
          (fun ing =>
             let words := Py.split (Py.lower ing) in
             let main_words :=
               List.filter (fun w => (3 <? Py.len w)%nat
                                && negb (starts_with_digit w)) words in
             firstn 2 main_words)
          target_ingredients)).

Definition any_like (column : option string) (patterns : list string)
    : Sql.tbool :=
  fold_right (fun p acc => Sql.or_ (Sql.lower_like column p) acc)
             (Some false) patterns.

(** [_get_candidate_recipes] *)
Definition get_candidate_recipes (db : list Recipe) (target : Recipe)
    (limit : nat) : list Recipe :=
  let patterns := ingredient_patterns target in
  let keep (r : Recipe) : bool :=
    negb (id r =? id target)%Z
    && match patterns with
       | [] => true
       | _ :: _ => Sql.holds (any_like (search_text r) patterns)
       end
    && match calories target with
       | Some c =>
           if MemoryMatcher.Qlt_bool 0 c
           then Sql.holds (Sql.and_ (Sql.ge (calories r) (c * (1 # 2)))
                                    (Sql.le (calories r) (c * (3 # 2))))
           else true
       | None => true
       end in
  firstn limit (List.filter keep db).

(** [_recipe_to_text] *)
Definition recipe_to_text (recipe : Recipe) : string :=
  let parts :=
    ((if String.eqb (title recipe) "" then []
      else [title recipe; title recipe; title recipe])
     ++ first_n 10 (ingredients recipe)
     ++ default [] (categories recipe))%list in
  Py.lower (Py.join " " parts).

(** [_get_nutrition_vector] *)
Definition get_nutrition_vector (recipe : Recipe) : list Q :=
  [ or_zero (calories recipe);
    or_zero (protein recipe) * 10;
    or_zero (fat recipe) * 10;
    or_zero (sodium recipe) / 10 ].

Definition vector_sub (a b : list Q) : list Q :=
  map (fun p => fst p - snd p) (combine a b).

(** One entry of the result of [find_similar]. *)
Record Similar : Type := {
  sim_recipe : Recipe;
  similarity_score : Q;
  similarity_reasons : list string
}.

Fixpoint insert_desc (x : Similar) (l : list Similar) : list Similar :=
  match l with
  | [] => [x]
  | y :: l' =>
      if Qle_bool (similarity_score y) (similarity_score x) then x :: y :: l'
      else y :: insert_desc x l'
  end.

Definition sort_desc (l : list Similar) : list Similar :=
  fold_right insert_desc [] l.

Section Engine.

(** The numerical libraries: the cosine similarities of the candidate
    texts to the target text in their common term space, the Euclidean
    norm and the exponential. *)
Variable text_similarities : string -> list string -> list Q.
Variable norm : list Q -> Q.
Variable exp : Q -> Q.

(** The wording of the reasons reads Python sets, whose order is not
    fixed. *)
Variable generate_similarity_reasons : Recipe -> Recipe -> Q -> Q -> list string.

(** [_calculate_nutrition_similarity] *)
Definition calculate_nutrition_similarity (target : Recipe)
    (candidates : list Recipe) : list Q :=
  let target_nutrition := get_nutrition_vector target in
  map (fun r =>
         let distance :=
           norm (vector_sub (get_nutrition_vector r) target_nutrition) in
         exp (- distance / 100))
      candidates.

(** [_find_similar_recipes] *)
Definition find_similar_recipes (db : list Recipe) (target : Recipe)
    (limit : nat) (min_score : Q) : list Similar :=
  let candidates := get_candidate_recipes db target (limit * 10) in
  match candidates with
  | [] => []
  | _ :: _ =>
      let target_text := recipe_to_text target in
      let candidate_texts := map recipe_to_text candidates in
      let text_sims := text_similarities target_text candidate_texts in
      let nutrition_sims := calculate_nutrition_similarity target candidates in
      let results :=
        flat_map
          (fun '(i, recipe) =>
             let text_sim := MemoryMatcher.at_ text_sims i in
             let nutrition_sim := MemoryMatcher.at_ nutrition_sims i in
             let combined := (7 # 10) * text_sim + (3 # 10) * nutrition_sim in
             if Qle_bool min_score combined
             then [{| sim_recipe := recipe;
                      similarity_score := combined;
                      similarity_reasons :=
                        generate_similarity_reasons target recipe
                          text_sim nutrition_sim |}]
             else [])
          (combine (seq 0 (length candidates)) candidates) in
      sort_desc results
  end.

(** [find_similar] *)
Definition find_similar (db : list Recipe) (recipe_id : Z) (limit : nat)
    (min_score : Q) : list Similar :=
  match List.find (fun r => (id r =? recipe_id)%Z) db with
  | None => []
  | Some target_recipe =>
      let similar_recipes :=
        find_similar_recipes db target_recipe (limit * 3) min_score in
      firstn limit similar_recipes
  end.

End Engine.

End SimilarityEngine.

(** ** [core/meal_planner.py] *)

Module MealPlanner.

Import Models.

#[local] Open Scope Q_scope.

Definition Qlt_bool := MemoryMatcher.Qlt_bool.

(** The preference flags the planner reads. *)
Record Preferences : Type := {
  vegetarian : bool;
  low_carb : bool;
  high_protein : bool;
  no_dairy : bool;
  no_gluten : bool;
  no_nuts : bool
}.

(** The constraints dictionary of one meal slot. *)
Record Constraints : Type := {
  c_meal_type : string;
  c_calories : option (Q * Q);
  c_protein_min : option Q;
  c_vegetarian : bool;
  c_carb_max : option Q;
  c_excluded_ingredients : list string
}.

(** [{'meal_type': meal_type}], the relaxed constraints. *)
Definition relaxed (meal_type : string) : Constraints :=
  {| c_meal_type := meal_type; c_calories := None; c_protein_min := None;
     c_vegetarian := false; c_carb_max := None;
     c_excluded_ingredients := [] |}.

(** [_default_nutrition_goals] *)
Definition default_nutrition_goals : gmap string Q :=
  <["calories" := 2000]> (<["protein" := 75]> (<["fat" := 65]>
    (<["sodium" := 2300]> ∅))).

(** [_get_meal_type_distribution] *)
Definition get_meal_type_distribution (meals_per_day : nat) : list string :=
  match meals_per_day with
  | 2%nat => ["breakfast"; "dinner"]
  | 3%nat => ["breakfast"; "lunch"; "dinner"]
  | 4%nat => ["breakfast"; "snack"; "lunch"; "dinner"]
  | _ => ["breakfast"; "lunch"; "dinner"]
  end.

Definition Qmax := MemoryMatcher.Qmax.
Definition Qmin (a b : Q) : Q := if Qle_bool a b then a else b.

(** [_build_meal_constraints] *)
Definition build_meal_constraints (meal_type : string)
    (preferences : Preferences) (nutrition_goals : gmap string Q)
    (calories_per_meal day_calories daily_calories : Q) : Constraints :=
  let remaining_calories := daily_calories - day_calories in
  let main_meal := Py.mem meal_type ["breakfast"; "lunch"; "dinner"] in
  {| c_meal_type := meal_type;
     c_calories :=
       if Qlt_bool 0 remaining_calories
       then Some (Qmax 50 (calories_per_meal * (7 # 10)),
                  Qmin remaining_calories (calories_per_meal * (13 # 10)))
       else None;
     c_protein_min :=
       if high_protein preferences then Some 20
       else if Qle_bool 100 (default 0 (nutrition_goals !! "protein"))
               && main_meal
       then Some 15 else None;
     c_vegetarian := vegetarian preferences;
     c_carb_max := if low_carb preferences then Some 30 else None;
     c_excluded_ingredients :=
       ((if no_dairy preferences
         then ["milk"; "cheese"; "butter"; "cream"; "yogurt"] else [])
        ++ (if no_gluten preferences
            then ["flour"; "wheat"; "bread"; "pasta"] else [])
        ++ (if no_nuts preferences
            then ["peanut"; "almond"; "walnut"; "cashew"] else []))%list |}.

(** [~Recipe.id.in_(used_recipe_ids)] and the other conditions of
    [_get_meal_candidates]. *)
Definition candidate_filter (constraints : Constraints)
    (used_recipe_ids : gset Z) (r : Recipe) : bool :=
  negb (bool_decide (id r ∈ used_recipe_ids))
  && (if String.eqb (c_meal_type constraints) "" then true
      else Sql.holds (Sql.lower_like (search_text r)
                                     (c_meal_type constraints)))
  && match c_calories constraints with
     | Some (lo, hi) =>
         Sql.holds (Sql.ge (calories r) lo) && Sql.holds (Sql.le (calories r) hi)
     | None => true
     end
  && match c_protein_min constraints with
     | Some p => Sql.holds (Sql.ge (protein r) p)
     | None => true
     end
  && (if c_vegetarian constraints
      then Sql.holds (Sql.lower_like (search_text r) "vegetarian") else true)
  && forallb (fun exc =>
                Sql.holds (Sql.not_ (Sql.lower_like (search_text r)
                                                    (Py.lower exc))))
             (c_excluded_ingredients constraints)
  && Sql.holds (Sql.isnot_none (calories r))
  && Sql.holds (Sql.gt (calories r) 0).

(** [ORDER BY random()]: every row draws a key and the rows are sorted
    by it. *)
Fixpoint insert_by_key (x : Q * Recipe) (l : list (Q * Recipe))
    : list (Q * Recipe) :=
  match l with
  | [] => [x]
  | y :: l' =>
      if Qle_bool (fst x) (fst y) then x :: y :: l'
      else y :: insert_by_key x l'
  end.

Definition order_by_random (key : nat -> Q) (rows : list Recipe)
    : list Recipe :=
  map snd
    (fold_right insert_by_key []
       (combine (map key (seq 0 (length rows))) rows)).

(** [_get_meal_candidates]; [key] is the random key of each row. *)
Definition get_meal_candidates (db : list Recipe) (key : nat -> Q)
    (constraints : Constraints) (used_recipe_ids : gset Z) (limit : nat)
    : list Recipe :=
  firstn limit
    (order_by_random key (List.filter (candidate_filter constraints used_recipe_ids) db)).

(** The main word of an ingredient line: the first word longer than
    four characters, else the first word, else nothing. *)
Definition main_word (ing : string) : string :=
  let words := Py.split (Py.lower ing) in
  match List.find (fun w => (4 <? Py.len w)%nat) words with
  | Some w => w
  | None => match words with w :: _ => w | [] => "" end
  end.

Definition top_ingredients (r : Recipe) : list string :=
  SimilarityEngine.first_n 5 (ingredients r).

(** The variety score of one candidate. *)
Definition variety_score (used_ingredients : gmap string nat) (recipe : Recipe)
    : Q :=
  let words :=
    List.filter (fun w => negb (String.eqb w ""))
           (map main_word (top_ingredients recipe)) in
  let new_ingredients :=
    MemoryMatcher.count
      (fun w => (default 0%nat (used_ingredients !! w) =? 0)%nat) words in
  let repeated_ingredients := (length words - new_ingredients)%nat in
  inject_Z (Z.of_nat new_ingredients)
  - inject_Z (Z.of_nat repeated_ingredients) * (1 # 2).

(** The loop of [_select_recipe_with_variety]: [best] starts at
    [(None, -1)]; [i] numbers the candidates for the random draws. *)
Fixpoint best_of (used_ingredients : gmap string nat) (variety_weight : Q)
    (draw : nat -> Q) (i : nat) (candidates : list Recipe)
    (best : option Recipe * Q) : option Recipe * Q :=
  match candidates with
  | [] => best
  | recipe :: rest =>
      let random_factor := draw i * (1 - variety_weight) in
      let total_score :=
        variety_score used_ingredients recipe * variety_weight
        + random_factor in
      best_of used_ingredients variety_weight draw (S i) rest
        (if Qlt_bool (snd best) total_score then (Some recipe, total_score)
         else best)
  end.

(** [_select_recipe_with_variety]; [pick] is the draw of
    [random.choice] and [draw] the draws of [random.random]. *)
Definition select_recipe_with_variety (pick : nat) (draw : nat -> Q)
    (candidates : list Recipe) (used_ingredients : gmap string nat)
    (variety_weight : Q) : option Recipe :=
  match candidates with
  | [] => None
  | first :: _ =>
      if Qlt_bool variety_weight (1 # 10)
      then nth_error candidates (pick mod length candidates)
      else
        match fst (best_of used_ingredients variety_weight draw 0 candidates
                           (None, - (1))) with
        | Some best_recipe => Some best_recipe
        | None => Some first
        end
  end.

(** One placed meal and one day of the plan. *)
Record Meal : Type := {
  meal_recipe : Recipe;
  meal_type : string;
  meal_number : nat
}.

Record DayPlan : Type := {
  day : nat;
  meals : list Meal;
  daily_calories : Q;
  daily_protein : Q
}.

(** What the slot loop carries along. *)
Record Tracking : Type := {
  used_recipe_ids : gset Z;
  used_ingredients : gmap string nat;
  day_meals : list Meal;
  day_calories : Q;
  day_protein : Q
}.

Definition track_ingredients (selected : Recipe) (used : gmap string nat)
    : gmap string nat :=
  fold_left
    (fun used ing =>
       let w := main_word ing in
       if String.eqb w "" then used
       else <[w := S (default 0%nat (used !! w))]> used)
    (top_ingredients selected) used.

(** The random draws of one plan, named by the slot that makes them:
    the row keys of the first and of the relaxed lookup, the draw of
    [random.choice] and the draws of [random.random]. *)
Record Randomness : Type := {
  row_key : nat -> nat -> bool -> nat -> Q;
  choice : nat -> nat -> nat;
  uniform : nat -> nat -> nat -> Q
}.

Section Plan.

Variable db : list Recipe.
Variable rnd : Randomness.
Variable preferences : Preferences.
Variable nutrition_goals : gmap string Q.
Variable meals_per_day : nat.
Variable variety_weight : Q.

(** [round(x, 1)] on a float. *)
Variable round1 : Q -> Q.

Definition the_daily_calories : Q :=
  default 2000 (nutrition_goals !! "calories").

Definition calories_per_meal : Q :=
  the_daily_calories / inject_Z (Z.of_nat meals_per_day).

(** The body of the inner loop of [_generate_plan]: one meal slot. *)
Definition fill_slot (day_num : nat) (t : Tracking) (slot : nat * string)
    : Tracking :=
  let '(meal_idx, meal_type) := slot in
  let constraints :=
    build_meal_constraints meal_type preferences nutrition_goals
      calories_per_meal (day_calories t) the_daily_calories in
  let candidates :=
    get_meal_candidates db (row_key rnd day_num meal_idx false) constraints
      (used_recipe_ids t) 50 in
  let candidates :=
    match candidates with
    | [] => get_meal_candidates db (row_key rnd day_num meal_idx true)
              (relaxed meal_type) (used_recipe_ids t) 20
    | _ :: _ => candidates
    end in
  match select_recipe_with_variety (choice rnd day_num meal_idx)
          (uniform rnd day_num meal_idx) candidates (used_ingredients t)
          variety_weight with
  | None => t
  | Some selected =>
      {| used_recipe_ids := {[ id selected ]} ∪ used_recipe_ids t;
         used_ingredients := track_ingredients selected (used_ingredients t);
         day_meals :=
           (day_meals t
            ++ [{| meal_recipe := selected; meal_type := meal_type;
                   meal_number := S meal_idx |}])%list;
         day_calories := day_calories t + or_zero (calories selected);
         day_protein := day_protein t + or_zero (protein selected) |}
  end.

Definition enumerate {A} (l : list A) : list (nat * A) :=
  combine (seq 0 (length l)) l.

(** The body of the outer loop: one day.  The state between days is the
    plan so far with the two tracking structures. *)
Definition fill_day (st : list DayPlan * (gset Z * gmap string nat))
    (day_num : nat) : list DayPlan * (gset Z * gmap string nat) :=
  let '(meal_plan, (used_ids, used_ings)) := st in
  let t :=
    fold_left (fill_slot day_num)
      (enumerate (get_meal_type_distribution meals_per_day))
      {| used_recipe_ids := used_ids; used_ingredients := used_ings;
         day_meals := []; day_calories := 0; day_protein := 0 |} in
  ((meal_plan
    ++ [{| day := day_num; meals := day_meals t;
           daily_calories := round1 (day_calories t);
           daily_protein := round1 (day_protein t) |}])%list,
   (used_recipe_ids t, used_ingredients t)).

(** [_generate_plan] *)
Definition generate_plan (days : nat) : list DayPlan :=
  fst (fold_left fill_day (seq 1 days) ([], (∅, ∅))).

End Plan.

(** *** [_calculate_nutrition_summary] *)

(** [a / b]; [None] is Python's [ZeroDivisionError]. *)
Definition py_div (a b : Q) : option Q :=
  if Qeq_bool b 0 then None else Some (a / b).

(** One entry of [goal_achievement]. *)
Record Achievement : Type := {
  target : Q;
  actual : Q;
  achievement : Q
}.

Record Summary : Type := {
  total_nutrition : gmap string Q;
  daily_average : gmap string Q;
  goal_achievement : gmap string Achievement;
  total_recipes : nat
}.

Definition all_meals (meal_plan : list DayPlan) : list Meal :=
  flat_map meals meal_plan.

Definition sumQ (l : list Q) : Q := fold_left Qplus l 0.

(** The nutrients the summary adds up. *)
Definition summed : list (string * (Recipe -> option Q)) :=
  [("calories", calories); ("protein", protein); ("fat", fat);
   ("sodium", sodium); ("sugar", sugar)].

Definition sum_nutrition (meal_plan : list DayPlan) : gmap string Q :=
  list_to_map
    (map (fun '(nutrient, col) =>
            (nutrient,
             sumQ (map (fun m => or_zero (col (meal_recipe m)))
                       (all_meals meal_plan))))
         summed).

Section Summary.

(** [round(x, 1)] on a float. *)
Variable round1 : Q -> Q.

(** The averages per day; the division fails on an empty plan. *)
Definition average_nutrition (total : gmap string Q) (num_days : nat)
    : option (gmap string Q) :=
  if (num_days =? 0)%nat then None
  else Some ((fun t => round1 (t / inject_Z (Z.of_nat num_days))) <$> total).

(** The body of the goal loop: [Some None] when the goal is skipped,
    [None] when the division fails. *)
Definition goal_entry (avg_nutrition : gmap string Q) (nutrient : string)
    (goal_value : Q) : option (option Achievement) :=
  let actual_value := default 0 (avg_nutrition !! nutrient) in
  if Qlt_bool 0 goal_value then
    match py_div actual_value goal_value with
    | None => None
    | Some quotient =>
        let achievement_pct := quotient * 100 in
        Some (Some {| target := goal_value;
                      actual := actual_value;
                      achievement := round1 achievement_pct |})
    end
  else Some None.

Definition goal_step (avg_nutrition : gmap string Q) (entry : string * Q)
    (acc : option (gmap string Achievement))
    : option (gmap string Achievement) :=
  match acc, goal_entry avg_nutrition (fst entry) (snd entry) with
  | Some m, Some (Some e) => Some (<[fst entry := e]> m)
  | Some m, Some None => Some m
  | _, _ => None
  end.

Definition calculate_goal_achievement (avg_nutrition nutrition_goals : gmap string Q)
    : option (gmap string Achievement) :=
  foldr (goal_step avg_nutrition) (Some ∅) (map_to_list nutrition_goals).

Definition calculate_nutrition_summary (meal_plan : list DayPlan)
    (nutrition_goals : gmap string Q) : option Summary :=
  let total := sum_nutrition meal_plan in
  match average_nutrition total (length meal_plan) with
  | None => None
  | Some avg =>
      match calculate_goal_achievement avg nutrition_goals with
      | None => None
      | Some goals =>
          Some {| total_nutrition := total;
                  daily_average := avg;
                  goal_achievement := goals;
                  total_recipes := length (all_meals meal_plan) |}
      end
  end.

(** *** [generate_meal_plan] *)

Record MealPlanResult : Type := {
  meal_plan : list DayPlan;
  summary : Summary;
  res_preferences : Preferences;
  res_nutrition_goals : gmap string Q
}.

Definition no_preferences : Preferences :=
  {| vegetarian := false; low_carb := false; high_protein := false;
     no_dairy := false; no_gluten := false; no_nuts := false |}.

(** [x or default] on an optional dictionary: [None] and the empty
    dictionary are falsy. *)
Definition goals_or_default (goals : option (gmap string Q)) : gmap string Q :=
  match goals with
  | Some g => if bool_decide (g = ∅) then default_nutrition_goals else g
  | None => default_nutrition_goals
  end.

Definition clamp (lo hi x : Z) : nat := Z.to_nat (Z.max lo (Z.min x hi)).

Definition generate_meal_plan (db : list Recipe) (rnd : Randomness)
    (days : Z) (preferences : option Preferences)
    (nutrition_goals : option (gmap string Q)) (meals_per_day : Z)
    (variety_weight : Q) : option MealPlanResult :=
  let days := clamp 1 7 days in
  let meals_per_day := clamp 2 4 meals_per_day in
  let preferences := default no_preferences preferences in
  let nutrition_goals := goals_or_default nutrition_goals in
  let plan :=
    generate_plan db rnd preferences nutrition_goals meals_per_day
      variety_weight round1 days in
  match calculate_nutrition_summary plan nutrition_goals with
  | None => None
  | Some s =>
      Some {| meal_plan := plan; summary := s;
              res_preferences := preferences;
              res_nutrition_goals := nutrition_goals |}
  end.

End Summary.

End MealPlanner.

(** ** The dish-name tiers as the specification words them

    The definitions of this module follow the words of the
    specification, not the source: a whole-word match is a dish that is
    one of the words of the title, a phrase-boundary match is a dish
    whose words stand next to each other among the words of the title.
    They name the tiers of the dish-name component and pick the first
    one that is satisfied, to be compared with
    [RecipeMatcher.dish_name_scoring]. *)

Module DishTiers.

Inductive Tier : Type :=
| ExactTitle | FirstWord | LastWord | InteriorWord
| PhraseBoundary | TitleSubstring | SearchTextOnly.

Definition priority : list Tier :=
  [ExactTitle; FirstWord; LastWord; InteriorWord;
   PhraseBoundary; TitleSubstring; SearchTextOnly].

Definition points (t : Tier) : Z :=
  match t with
  | ExactTitle => 100
  | FirstWord => 60
  | LastWord => 65
  | InteriorWord => 55
  | PhraseBoundary => 50
  | TitleSubstring => 35
  | SearchTextOnly => 20
  end.

(** The dish is one of the words of the title. *)
Definition whole_word (title dish : string) : bool :=
  Py.mem dish (Py.split title).

Definition is_first_word (title dish : string) : bool :=
  match Py.split title with
  | w :: _ => String.eqb w dish
  | [] => false
  end.

Definition is_last_word (title dish : string) : bool :=
  match List.last (map Some (Py.split title)) None with
  | Some w => String.eqb w dish
  | None => false
  end.

(** The position of the first occurrence of the dish among the title
    words is the last position. *)
Definition first_occurrence_is_last (title dish : string) : bool :=
  match Py.index dish (Py.split title) with
  | Some position => (position =? length (Py.split title) - 1)%nat
  | None => false
  end.

(** The words [ws] are the first words of [l]; they stand next to each
    other somewhere in [l]. *)
Fixpoint first_words (ws l : list string) : bool :=
  match ws, l with
  | [], _ => true
  | _ :: _, [] => false
  | w :: ws', x :: l' => String.eqb w x && first_words ws' l'
  end.

Fixpoint consecutive_words (ws l : list string) : bool :=
  first_words ws l
  || match l with
     | [] => false
     | _ :: l' => consecutive_words ws l'
     end.

(** The words of the dish stand next to each other among the words of
    the title. *)
Definition phrase_boundary (title dish : string) : bool :=
  consecutive_words (Py.split dish) (Py.split title).

(** The words of a text are separated by one space each and no blank
    stands at either end. *)
Definition single_spaced (s : string) : bool :=
  String.eqb s (Py.join " " (Py.split s)).

(** Whether a tier is satisfied; [last_word] is the reading of "the dish
    is the last title word". *)
Definition satisfied (last_word : string -> string -> bool)
    (title search_text dish : string) (t : Tier) : bool :=
  match t with
  | ExactTitle => String.eqb title dish
  | FirstWord => whole_word title dish && is_first_word title dish
  | LastWord => whole_word title dish && last_word title dish
  | InteriorWord => whole_word title dish
  | PhraseBoundary => phrase_boundary title dish
  | TitleSubstring => Py.contains dish title
  | SearchTextOnly => Py.contains dish search_text
  end.

Definition first_satisfied (last_word : string -> string -> bool)
    (title search_text dish : string) : option Tier :=
  List.find (satisfied last_word title search_text dish) priority.

(** The tier of the claim as the specification states it, and the tier
    with the position taken at the first occurrence of the dish. *)
Definition claimed_tier : string -> string -> string -> option Tier :=
  first_satisfied is_last_word.

Definition tier : string -> string -> string -> option Tier :=
  first_satisfied first_occurrence_is_last.

Definition tier_points (t : option Tier) : Z :=
  match t with Some t => points t | None => 0 end.

End DishTiers.

(** ** [scripts/migrate_to_postgres.py]: how the search text is built *)

Module Migrate.

(** The search text [preprocess_recipe] stores: the title twice, the
    ingredient lines and the categories, each lower-cased. *)
Definition search_text_of (title : string) (ingredients categories : list string)
    : string :=
  Py.join " " (map Py.lower ([title; title] ++ ingredients ++ categories)%list).

End Migrate.

(** ** Sample data for the examples *)

Module Samples.

Import Models MemoryMatcher.

(** A spelling corrector that corrects nothing. *)
Definition no_correction (q : string) : string * list (string * string) :=
  (q, []).

Definition row (i : Z) (t : string) (ings : list string) (cal prot : option Q)
    (text : option string) : Recipe :=
  {| id := i; title := t; description := None; ingredients := Some ings;
     directions := None; categories := None; calories := cal;
     protein := prot; fat := None; sodium := None; sugar := None;
     saturates := None; search_text := text |}.

(** A migrated row. *)
Definition chicken_soup : Recipe :=
  row 1 "Chicken Soup" ["chicken"; "water"] (Some 300%Q) (Some 25%Q)
      (Some (Migrate.search_text_of "Chicken Soup" ["chicken"; "water"] [])).

(** A row whose search text was not derived from its title. *)
Definition onion_soup : Recipe :=
  row 2 "Onion Soup" ["stock"] (Some 200%Q) (Some 5%Q) (Some "soup with stock").

(** A row without protein data. *)
Definition plain_soup : Recipe :=
  row 3 "Plain Soup" ["water"] (Some 100%Q) None
      (Some (Migrate.search_text_of "Plain Soup" ["water"] [])).

Definition dish (t : string) (ings : list string) (values : list (string * Q))
    : MemRecipe :=
  {| m_title := t; m_desc := t; m_ingredients := ings; m_directions := [];
     m_categories := []; m_values := list_to_map values |}.

Definition tomato_soup : MemRecipe :=
  dish "Tomato Soup" ["tomato"; "water"] [("protein", 2%Q)].

Definition rice_bowl : MemRecipe :=
  dish "Rice Bowl" ["rice"; "beans"] [("protein", 8%Q)].

Definition bean_soup : MemRecipe :=
  dish "Bean Soup" ["beans"] [("protein", 9%Q)].

End Samples.

(** ** Orders used to state the rankings *)

Module Ranking.

(** [a] may stand before [b] in the result of the database mode. *)
Definition ranked (a b : RecipeMatcher.ScoredMatch) : Prop :=
  RecipeMatcher.sm_points b <= RecipeMatcher.sm_points a.

End Ranking.

(** ** Reading the nutrition mapping *)

Module NutritionMap.

Import QueryParser.

(** [nutrition.get(nutrient, {}).get(kind)]: one bound of one nutrient,
    when it is set. *)
Definition bound (kind : bound_kind) (o : option Bounds) : option Q :=
  match o with
  | Some b => match kind with Min => b_min b | Max => b_max b end
  | None => None
  end.

(** The nutrient and the bound a modifier writes. *)
Definition target (m : bool * (string * bound_kind * Q))
    : string * bound_kind :=
  (fst (fst (snd m)), snd (fst (snd m))).

End NutritionMap.

(** ** Changing the required ingredients of a parsed query *)

Module Requiring.

(** The parsed query with its required-ingredient list replaced. *)
Definition with_ingredients (pq : ParsedQuery) (required : list string)
    : ParsedQuery :=
  {| original_query := original_query pq;
     corrected_query := corrected_query pq;
     spelling_corrections := spelling_corrections pq;
     pq_ingredients := required;
     excluded_ingredients := excluded_ingredients pq;
     pq_categories := pq_categories pq;
     meal_type := meal_type pq;
     nutrition := nutrition pq;
     dish_name := dish_name pq |}.

End Requiring.

(** ** More sample data *)

Module MoreSamples.

Import Models.

Definition chicken_stew : Recipe :=
  Samples.row 4 "Chicken Stew" ["chicken thighs"; "carrot"] (Some 350%Q)
    (Some 30%Q)
    (Some (Migrate.search_text_of "Chicken Stew" ["chicken thighs"; "carrot"] [])).

Definition oat_porridge : Recipe :=
  Samples.row 5 "Oat Porridge" ["rolled oats"; "milk"] (Some 500%Q)
    (Some 10%Q)
    (Some (Migrate.search_text_of "Oat Porridge" ["rolled oats"; "milk"]
             ["breakfast"])).

Definition lunch_wrap : Recipe :=
  Samples.row 6 "Bean Wrap" ["tortilla"; "beans"] (Some 600%Q) (Some 20%Q)
    (Some (Migrate.search_text_of "Bean Wrap" ["tortilla"; "beans"] ["lunch"])).

Definition roast_dinner : Recipe :=
  Samples.row 7 "Roast Dinner" ["chicken breast"; "potatoes"] (Some 700%Q)
    (Some 40%Q)
    (Some (Migrate.search_text_of "Roast Dinner"
             ["chicken breast"; "potatoes"] ["dinner"])).

Definition pantry : list Recipe :=
  [Samples.chicken_soup; chicken_stew; oat_porridge; lunch_wrap; roast_dinner].

(** Stand-ins for the numerical libraries and the random source. *)
Definition flat_similarity (_ : string) (texts : list string) : list Q :=
  map (fun _ => 1%Q) texts.

Definition no_reasons (_ _ : Recipe) (_ _ : Q) : list string := [].

(** A recipe of the in-memory collection without nutrition data. *)
Definition broth : MemoryMatcher.MemRecipe :=
  Samples.dish "Broth" ["water"] [].

(** A plan of one day with one meal, goals of which one is zero, and a
    stand-in for [round]. *)
Definition one_day : list MealPlanner.DayPlan :=
  [ {| MealPlanner.day := 1;
       MealPlanner.meals :=
         [ {| MealPlanner.meal_recipe := Samples.chicken_soup;
              MealPlanner.meal_type := "lunch";
              MealPlanner.meal_number := 1 |} ];
       MealPlanner.daily_calories := 300;
       MealPlanner.daily_protein := 25 |} ].

Definition two_goals : gmap string Q :=
  <["calories" := 2000%Q]> (<["sugar" := 0%Q]> ∅).

Definition no_rounding (x : Q) : Q := x.

Definition fixed_draws : MealPlanner.Randomness :=
  {| MealPlanner.row_key := fun _ _ _ i => inject_Z (Z.of_nat i);
     MealPlanner.choice := fun _ _ => 0%nat;
     MealPlanner.uniform := fun _ _ _ => (1 # 2)%Q |}.

End MoreSamples.

(** ** Reading a meal plan *)

Module PlanView.

Import Models MealPlanner.

(** The id of the recipe of a placed meal. *)
Definition recipe_id (m : Meal) : Z := id (meal_recipe m).

(** The calories and the protein a placed meal adds to the totals of its
    day. *)
Definition meal_calories (m : Meal) : Q := or_zero (calories (meal_recipe m)).
Definition meal_protein (m : Meal) : Q := or_zero (protein (meal_recipe m)).

(** The ids of the placed meals are distinct and all marked as used:
    what the planner keeps true from slot to slot. *)
Definition distinct_and_used (placed : list Meal) (used : gset Z) : Prop :=
  List.NoDup (map recipe_id placed)
  /\ forall m, In m placed -> recipe_id m ∈ used.

End PlanView.

(* ===================================================================== *)
(** * Part II: properties                                                 *)
(* ===================================================================== *)

(** ** Strings *)

Section Strings.

Lemma append_nil_l (s : string) : "" +:+ s = s.
Proof. reflexivity. Qed.

Lemma append_cons (c : ascii) (s t : string) :
  String c s +:+ t = String c (s +:+ t).
Proof. reflexivity. Qed.

Lemma append_nil_r (s : string) : s +:+ "" = s.
Proof.
  induction s as [|c s IH]; [reflexivity|]. now rewrite append_cons, IH.
Qed.

Lemma append_assoc (a b c : string) : (a +:+ b) +:+ c = a +:+ (b +:+ c).
Proof.
  induction a as [|x a IH]; [reflexivity|]. now rewrite !append_cons, IH.
Qed.

Lemma startswith_app (p b : string) : Py.startswith p (p +:+ b) = true.
Proof.
  induction p as [|c p IH]; [reflexivity|].
  rewrite append_cons. simpl. rewrite Ascii.eqb_refl. exact IH.
Qed.

Lemma startswith_inv (p s : string) :
  Py.startswith p s = true -> exists b, s = p +:+ b.
Proof.
  revert s. induction p as [|c p IH]; intros s H; simpl in *.
  - exists s. reflexivity.
  - destruct s as [|d s]; [discriminate|].
    apply andb_prop in H. destruct H as [E H]. apply Ascii.eqb_eq in E.
    subst d. destruct (IH s H) as [b ->]. exists b. reflexivity.
Qed.

Lemma contains_unfold (p s : string) :
  Py.contains p s
  = Py.startswith p s
    || match s with EmptyString => false | String _ s' => Py.contains p s' end.
Proof. destruct s; reflexivity. Qed.

(** [p in s] holds exactly when [s] is [a + p + b] for some [a], [b]. *)
Lemma contains_intro (a p b : string) : Py.contains p (a +:+ p +:+ b) = true.
Proof.
  induction a as [|c a IH].
  - rewrite append_nil_l, contains_unfold, startswith_app. reflexivity.
  - rewrite append_cons, contains_unfold, IH. apply orb_true_r.
Qed.

Lemma contains_inv (p s : string) :
  Py.contains p s = true -> exists a b, s = a +:+ p +:+ b.
Proof.
  induction s as [|c s IH]; rewrite contains_unfold; intros H.
  - rewrite orb_false_r in H. apply startswith_inv in H. destruct H as [b ->].
    exists "", b. reflexivity.
  - apply orb_prop in H. destruct H as [H|H].
    + apply startswith_inv in H. destruct H as [b ->]. exists "", b. reflexivity.
    + destruct (IH H) as (a & b & ->). exists (String c a), b. reflexivity.
Qed.

Lemma contains_refl (s : string) : Py.contains s s = true.
Proof.
  pose proof (contains_intro "" s "") as H.
  now rewrite append_nil_l, append_nil_r in H.
Qed.

Lemma contains_trans (a b c : string) :
  Py.contains a b = true -> Py.contains b c = true -> Py.contains a c = true.
Proof.
  intros H1 H2. apply contains_inv in H1, H2.
  destruct H1 as (x & y & ->), H2 as (u & v & ->).
  replace (u +:+ (x +:+ a +:+ y) +:+ v) with ((u +:+ x) +:+ a +:+ (y +:+ v))
    by now rewrite !append_assoc.
  apply contains_intro.
Qed.

Lemma contains_app_l (p a b : string) :
  Py.contains p a = true -> Py.contains p (a +:+ b) = true.
Proof.
  intros H. apply (contains_trans p a); [exact H|].
  exact (contains_intro "" a b).
Qed.

Lemma lower_app (a b : string) :
  Py.lower (a +:+ b) = Py.lower a +:+ Py.lower b.
Proof.
  induction a as [|c a IH]; [reflexivity|].
  rewrite append_cons. simpl. now rewrite IH, append_cons.
Qed.

Lemma lower_char_idem (c : ascii) :
  Py.lower_char (Py.lower_char c) = Py.lower_char c.
Proof.
  destruct c as [[] [] [] [] [] [] [] []]; reflexivity.
Qed.

Lemma lower_idem (s : string) : Py.lower (Py.lower s) = Py.lower s.
Proof.
  induction s as [|c s IH]; simpl; [reflexivity|].
  now rewrite lower_char_idem, IH.
Qed.

Lemma contains_lower (p s : string) :
  Py.contains p s = true -> Py.contains (Py.lower p) (Py.lower s) = true.
Proof.
  intros H. apply contains_inv in H. destruct H as (a & b & ->).
  rewrite !lower_app. apply contains_intro.
Qed.

(** A text that ends in [c] and is split before a non-empty part. *)
Lemma append_snoc_inv (x y z : string) (c : ascii) :
  x +:+ String c "" = y +:+ z -> z <> "" ->
  exists z', z = z' +:+ String c "" /\ x = y +:+ z'.
Proof.
  revert y. induction x as [|a x IH]; intros y H Hz;
    destruct y as [|b y]; rewrite ?append_nil_l, ?append_cons in H.
  - exists "". split; [now rewrite <- H | reflexivity].
  - injection H as -> H. destruct y; [|discriminate].
    rewrite append_nil_l in H. congruence.
  - subst z. exists (String a x). split; [apply append_cons | reflexivity].
  - injection H as -> H. destruct (IH y H Hz) as (z' & -> & ->).
    exists z'. split; reflexivity.
Qed.

End Strings.

(** ** Lists of words *)

Section WordLists.

Lemma mem_index (x : string) (l : list string) :
  Py.mem x l = match Py.index x l with Some _ => true | None => false end.
Proof.
  unfold Py.mem. induction l as [|y l IH]; simpl; [reflexivity|].
  rewrite (String.eqb_sym x y). destruct (String.eqb y x); simpl; [reflexivity|].
  rewrite IH. destruct (Py.index x l); reflexivity.
Qed.

Lemma mem_In (x : string) (l : list string) : Py.mem x l = true <-> In x l.
Proof.
  unfold Py.mem. rewrite existsb_exists. split.
  - intros (y & Hy & E). apply String.eqb_eq in E. subst. exact Hy.
  - intros H. exists x. split; [exact H | apply String.eqb_refl].
Qed.

Lemma index_lt (x : string) (l : list string) (p : nat) :
  Py.index x l = Some p -> (p < length l)%nat.
Proof.
  revert p. induction l as [|y l IH]; simpl; intros p H; [discriminate|].
  destruct (String.eqb y x).
  - injection H as <-. lia.
  - destruct (Py.index x l) as [q|]; [|discriminate].
    injection H as <-. specialize (IH q eq_refl). lia.
Qed.

(** [l.index(x)] is the position of the first occurrence of [x]. *)
Lemma index_first (x : string) (l : list string) (p : nat) :
  Py.index x l = Some p ->
  nth_error l p = Some x /\ forall q, (q < p)%nat -> nth_error l q <> Some x.
Proof.
  revert p. induction l as [|y l IH]; simpl; intros p H; [discriminate|].
  destruct (String.eqb y x) eqn:E.
  - injection H as <-. apply String.eqb_eq in E. subst. split; [reflexivity|].
    intros q Hq. lia.
  - destruct (Py.index x l) as [p'|]; [|discriminate].
    injection H as <-. destruct (IH p' eq_refl) as [H1 H2]. split; [exact H1|].
    intros [|q] Hq; simpl.
    + intros [= ->]. rewrite String.eqb_refl in E. discriminate.
    + apply H2. lia.
Qed.

End WordLists.

(** ** The dish-name component of the score *)

(** *** Words, blanks and the padded containment test *)

Section Words.

Import DishTiers.

(** A text without blank characters; a word is such a text that is not
    empty. *)
Let blank_free (s : string) : bool :=
  forallb (fun c => negb (Py.is_space c)) (list_ascii_of_string s).

Let is_word (w : string) : bool := negb (String.eqb w "") && blank_free w.

(** The words of a list, each with a space before it. *)
Let spaced (l : list string) : string :=
  fold_right (fun w acc => " " +:+ w +:+ acc) "" l.

Lemma blank_free_cons (c : ascii) (s : string) :
  blank_free (String c s) = negb (Py.is_space c) && blank_free s.
Proof. reflexivity. Qed.

Lemma blank_free_app (a b : string) :
  blank_free (a +:+ b) = blank_free a && blank_free b.
Proof.
  induction a as [|c a IH]; [reflexivity|].
  rewrite append_cons, !blank_free_cons, IH. apply andb_assoc.
Qed.

Lemma eqb_app_cons_nil (cur : string) (c : ascii) (s : string) :
  String.eqb (cur +:+ String c s) "" = false.
Proof. destruct cur; reflexivity. Qed.

(** Every word [str.split()] returns is a word. *)
Lemma split_go_words (s cur : string) :
  blank_free cur = true ->
  Forall (fun w => is_word w = true) (Py.split_go s cur).
Proof.
  revert cur. induction s as [|c s IH]; intros cur Hcur; simpl.
  - destruct (String.eqb cur "") eqn:E; constructor; [|constructor].
    unfold is_word. rewrite E, Hcur. reflexivity.
  - destruct (Py.is_space c) eqn:Hc.
    + destruct (String.eqb cur "") eqn:E.
      * apply IH. reflexivity.
      * constructor; [|apply IH; reflexivity].
        unfold is_word. rewrite E, Hcur. reflexivity.
    + apply IH. rewrite blank_free_app, Hcur, blank_free_cons, Hc.
      reflexivity.
Qed.

Lemma split_words (s : string) :
  Forall (fun w => is_word w = true) (Py.split s).
Proof. apply split_go_words. reflexivity. Qed.

(** A word is the one word of itself. *)
Lemma split_go_blank_free (s cur : string) :
  blank_free s = true ->
  Py.split_go s cur
  = if String.eqb (cur +:+ s) "" then [] else [cur +:+ s].
Proof.
  revert cur. induction s as [|c s IH]; intros cur Hs; simpl.
  - rewrite append_nil_r. reflexivity.
  - rewrite blank_free_cons in Hs. apply andb_prop in Hs.
    destruct Hs as [Hc Hs]. apply negb_true_iff in Hc. rewrite Hc.
    rewrite (IH _ Hs), append_assoc, append_cons, append_nil_l.
    reflexivity.
Qed.

Lemma split_word (w : string) : is_word w = true -> Py.split w = [w].
Proof.
  unfold is_word. intros H. apply andb_prop in H. destruct H as [Hn Hb].
  unfold Py.split. rewrite (split_go_blank_free _ _ Hb), append_nil_l.
  apply negb_true_iff in Hn. rewrite Hn. reflexivity.
Qed.

(** The text between the two padding spaces. *)
Lemma padded_join (l : list string) :
  l <> [] -> " " +:+ Py.join " " l +:+ " " = spaced l +:+ " ".
Proof.
  induction l as [|w l IH]; [congruence|]. intros _.
  destruct l as [|w' l].
  - cbn [Py.join spaced fold_right]. rewrite append_nil_r. reflexivity.
  - change (Py.join " " (w :: w' :: l))
      with (w +:+ " " +:+ Py.join " " (w' :: l)).
    change (spaced (w :: w' :: l)) with (" " +:+ w +:+ spaced (w' :: l)).
    rewrite !append_assoc. rewrite <- IH by discriminate.
    rewrite ?append_assoc. reflexivity.
Qed.

Lemma spaced_starts (l : list string) :
  exists rest, spaced l +:+ " " = String " " rest.
Proof.
  destruct l as [|w l]; [exists ""; reflexivity|].
  exists (w +:+ spaced l +:+ " ").
  change (spaced (w :: l)) with (" " +:+ w +:+ spaced l).
  rewrite !append_assoc. reflexivity.
Qed.

(** Two blank-free texts, each followed by a space, are compared as a
    whole. *)
Lemma startswith_word (x w y z : string) :
  blank_free x = true -> blank_free w = true ->
  Py.startswith (x +:+ String " " y) (w +:+ String " " z)
  = String.eqb x w && Py.startswith y z.
Proof.
  assert (Hsp : forall c, negb (Py.is_space c) = true ->
                          Ascii.eqb " " c = false /\ Ascii.eqb c " " = false).
  { intros c Hc. split.
    - destruct (Ascii.eqb " " c) eqn:E; [|reflexivity].
      apply Ascii.eqb_eq in E. subst c. discriminate.
    - destruct (Ascii.eqb c " ") eqn:E; [|reflexivity].
      apply Ascii.eqb_eq in E. subst c. discriminate. }
  revert w. induction x as [|a x IH]; intros w Hx Hw.
  - destruct w as [|c w].
    + rewrite !append_nil_l. cbn [Py.startswith String.eqb].
      rewrite Ascii.eqb_refl. reflexivity.
    + rewrite blank_free_cons in Hw. apply andb_prop in Hw.
      destruct Hw as [Hc _]. rewrite append_nil_l, append_cons.
      cbn [Py.startswith String.eqb].
      rewrite (proj1 (Hsp c Hc)). reflexivity.
  - rewrite blank_free_cons in Hx. apply andb_prop in Hx.
    destruct Hx as [Ha Hx]. destruct w as [|c w].
    + rewrite append_nil_l, append_cons. cbn [Py.startswith String.eqb].
      rewrite (proj2 (Hsp a Ha)). reflexivity.
    + rewrite blank_free_cons in Hw. apply andb_prop in Hw.
      destruct Hw as [_ Hw]. rewrite !append_cons.
      cbn [Py.startswith String.eqb].
      rewrite (IH w Hx Hw). destruct (Ascii.eqb a c); reflexivity.
Qed.

Lemma startswith_spaced (ws l : list string) :
  Forall (fun w => is_word w = true) ws ->
  Forall (fun w => is_word w = true) l ->
  Py.startswith (spaced ws +:+ " ") (spaced l +:+ " ") = first_words ws l.
Proof.
  intros Hws. revert l. induction Hws as [|x ws Hx Hws IH]; intros l Hl.
  - destruct (spaced_starts l) as [rest ->]. destruct l; reflexivity.
  - unfold is_word in Hx. apply andb_prop in Hx. destruct Hx as [Hxn Hxb].
    change (spaced (x :: ws)) with (" " +:+ x +:+ spaced ws).
    destruct Hl as [|w l Hw Hl].
    + destruct x as [|a x]; [discriminate|]. reflexivity.
    + unfold is_word in Hw. apply andb_prop in Hw. destruct Hw as [_ Hwb].
      change (spaced (w :: l)) with (" " +:+ w +:+ spaced l).
      rewrite !append_assoc, !append_cons, !append_nil_l.
      destruct (spaced_starts ws) as [y Ey].
      destruct (spaced_starts l) as [z Ez]. rewrite Ey, Ez.
      cbn [Py.startswith]. rewrite Ascii.eqb_refl. cbn [andb].
      rewrite (startswith_word x w y z Hxb Hwb).
      pose proof (IH l Hl) as H. rewrite Ey, Ez in H.
      cbn [Py.startswith] in H. rewrite Ascii.eqb_refl in H.
      cbn [andb] in H. rewrite H. reflexivity.
Qed.

(** A text that starts with a space is not found inside a word. *)
Lemma contains_skip_word (p w z : string) :
  blank_free w = true ->
  Py.contains (String " " p) (w +:+ z) = Py.contains (String " " p) z.
Proof.
  induction w as [|c w IH]; intros Hw; [reflexivity|].
  rewrite blank_free_cons in Hw. apply andb_prop in Hw.
  destruct Hw as [Hc Hw]. rewrite append_cons, contains_unfold, (IH Hw).
  cbn [Py.startswith].
  destruct (Ascii.eqb " " c) eqn:E; [|reflexivity].
  apply Ascii.eqb_eq in E. subst c. discriminate.
Qed.

Lemma contains_spaced (ws l : list string) :
  ws <> [] ->
  Forall (fun w => is_word w = true) ws ->
  Forall (fun w => is_word w = true) l ->
  Py.contains (spaced ws +:+ " ") (spaced l +:+ " ")
  = consecutive_words ws l.
Proof.
  intros Hne Hws Hl. induction Hl as [|w l Hw Hl IH].
  - destruct Hws as [|x ws Hx Hws]; [congruence|].
    unfold is_word in Hx. apply andb_prop in Hx. destruct Hx as [Hxn _].
    destruct x as [|a x]; [discriminate|]. reflexivity.
  - cbn [consecutive_words]. rewrite <- IH.
    assert (Hwl : Forall (fun w => is_word w = true) (w :: l))
      by (constructor; assumption).
    rewrite <- (startswith_spaced ws (w :: l) Hws Hwl).
    change (spaced (w :: l)) with (" " +:+ w +:+ spaced l).
    rewrite !append_assoc, append_cons, append_nil_l.
    rewrite contains_unfold. f_equal.
    unfold is_word in Hw. apply andb_prop in Hw. destruct Hw as [_ Hwb].
    destruct (spaced_starts ws) as [p ->].
    apply contains_skip_word. exact Hwb.
Qed.

Lemma single_spaced_join (s : string) :
  single_spaced s = true -> s = Py.join " " (Py.split s).
Proof. unfold single_spaced. intros H. apply String.eqb_eq in H. exact H. Qed.

(** Nothing written with words is found in the padding alone. *)
Lemma contains_spaced_blank (ws : list string) :
  ws <> [] ->
  Forall (fun w => is_word w = true) ws ->
  Py.contains (spaced ws +:+ " ") "  " = false.
Proof.
  intros Hne Hws. destruct Hws as [|x ws Hx Hws]; [congruence|].
  unfold is_word in Hx. apply andb_prop in Hx. destruct Hx as [Hxn Hxb].
  destruct x as [|a x]; [discriminate|].
  rewrite blank_free_cons in Hxb. apply andb_prop in Hxb.
  destruct Hxb as [Ha _].
  assert (Ea : Ascii.eqb a " " = false).
  { destruct (Ascii.eqb a " ") eqn:E; [|reflexivity].
    apply Ascii.eqb_eq in E. subst a. discriminate. }
  assert (EP : exists r, spaced (String a x :: ws) +:+ " "
                         = String " " (String a r))
    by (eexists; reflexivity).
  destruct EP as [r ->]. simpl. rewrite Ea. reflexivity.
Qed.

(** For a title and a dish written with single spaces, the padded
    containment test of the source finds the dish exactly when the words
    of the dish stand next to each other among the title words. *)
Lemma padded_contains_phrase (title dish : string) :
  dish <> "" ->
  single_spaced title = true -> single_spaced dish = true ->
  Py.contains (" " +:+ dish +:+ " ") (" " +:+ title +:+ " ")
  = phrase_boundary title dish.
Proof.
  intros Hd Ht Hs. unfold phrase_boundary.
  pose proof (split_words title) as Wt. pose proof (split_words dish) as Wd.
  apply single_spaced_join in Ht, Hs.
  set (T := Py.split title) in *. set (D := Py.split dish) in *.
  assert (Hne : D <> []).
  { intros E. rewrite E in Hs. apply Hd. exact Hs. }
  rewrite Hs, Ht. clearbody T D. clear Hd Hs Ht.
  rewrite (padded_join D Hne). destruct T as [|w l].
  - change (" " +:+ Py.join " " [] +:+ " ") with "  ".
    rewrite (contains_spaced_blank D Hne Wd).
    destruct D; [congruence|reflexivity].
  - rewrite (padded_join (w :: l)) by discriminate.
    apply contains_spaced; assumption.
Qed.

(** One word stands among the title words when it is one of them. *)
Lemma consecutive_one_word (d : string) (l : list string) :
  consecutive_words [d] l = Py.mem d l.
Proof.
  unfold Py.mem. induction l as [|w l IH]; [reflexivity|].
  cbn [consecutive_words first_words existsb]. rewrite IH.
  destruct l; rewrite andb_true_r; reflexivity.
Qed.

Lemma whole_word_phrase (title dish : string) :
  whole_word title dish = true -> phrase_boundary title dish = true.
Proof.
  unfold whole_word, phrase_boundary. intros H.
  assert (Hw : is_word dish = true).
  { pose proof (proj1 (List.Forall_forall _ _) (split_words title)) as W.
    apply W. apply mem_In. exact H. }
  rewrite (split_word _ Hw), consecutive_one_word. exact H.
Qed.

End Words.

Section DishName.

Import RecipeMatcher DishTiers.

Lemma truthy_some (d : string) : d <> "" -> Py.truthy (Some d) = Some d.
Proof.
  intros H. unfold Py.truthy. apply String.eqb_neq in H. rewrite H. reflexivity.
Qed.

Lemma is_first_word_index (t d : string) :
  is_first_word t d
  = match Py.index d (Py.split t) with Some 0%nat => true | _ => false end.
Proof.
  unfold is_first_word. destruct (Py.split t) as [|w ws]; simpl; [reflexivity|].
  destruct (String.eqb w d); [reflexivity|].
  destruct (Py.index d ws); reflexivity.
Qed.

(** The dish stands in the title between spaces or at either end: then
    it occurs in the title. *)
Lemma padded_contains (t d : string) :
  Py.contains (" " +:+ d +:+ " ") (" " +:+ t +:+ " ") = true ->
  Py.contains d t = true.
Proof.
  intros H. apply contains_inv in H.
  destruct H as (a & b & H).
  assert (Hz : " " +:+ b <> "") by discriminate.
  destruct a as [|c a].
  - rewrite append_nil_l, !append_cons, !append_nil_l in H. injection H as H.
    rewrite append_assoc in H.
    destruct (append_snoc_inv t d (" " +:+ b) " " H Hz) as (z' & _ & ->).
    exact (contains_intro "" d z').
  - rewrite !append_cons, !append_nil_l in H. injection H as _ H.
    assert (H' : t +:+ " " = ((a +:+ " ") +:+ d) +:+ (" " +:+ b)).
    { rewrite H, !append_assoc. now rewrite !append_cons, !append_nil_l. }
    destruct (append_snoc_inv t _ (" " +:+ b) " " H' Hz) as (z' & _ & ->).
    rewrite append_assoc. apply contains_intro.
Qed.

End DishName.

Section DishNameClaim.

Import RecipeMatcher DishTiers.

(** C3 (as amended).  For a non-empty dish name and a title, both
    written with single spaces between their words, the dish-name
    component of the database-mode score is the points of the first
    satisfied tier in the order exact title (100), dish is the first
    title word (60), the last (65), another title word (55), the words
    of the dish stand next to each other among the title words (50),
    substring of the title (35), search text only (20), where the word
    position is that of the first occurrence of the dish among the title
    words; a tier fires exactly when the dish occurs in the title or in
    the search text. *)
Theorem dish_name_fires_first_tier (title_lower search_text_lower d : string) :
  d <> "" ->
  single_spaced title_lower = true ->
  single_spaced (Py.lower d) = true ->
  let dish_lower := Py.lower d in
  dish_name_scoring title_lower search_text_lower (Some d)
  = tier_points (tier title_lower search_text_lower dish_lower)
  /\ (Py.contains dish_lower title_lower = true
      \/ Py.contains dish_lower search_text_lower = true
      <-> exists t, tier title_lower search_text_lower dish_lower = Some t).
Proof.
  intros Hd Ht Hs dish_lower.
  assert (Hl : dish_lower <> "").
  { unfold dish_lower. destruct d; [congruence|discriminate]. }
  pose proof (padded_contains_phrase title_lower dish_lower Hl Ht Hs) as Hp.
  pose proof (whole_word_phrase title_lower dish_lower) as Hw.
  split.
  - unfold dish_name_scoring. rewrite (truthy_some d Hd).
    fold dish_lower. rewrite Hp.
    unfold tier, first_satisfied, priority, satisfied. simpl List.find.
    rewrite is_first_word_index. unfold first_occurrence_is_last.
    unfold whole_word in *. rewrite mem_index in *.
    destruct (String.eqb title_lower dish_lower); [reflexivity|].
    destruct (Py.index dish_lower (Py.split title_lower)) as [[|p]|]; simpl.
    + rewrite (Hw eq_refl). reflexivity.
    + rewrite (Hw eq_refl).
      destruct (length (Py.split title_lower) - 1)%nat as [|m]; [reflexivity|].
      destruct (p =? m)%nat; reflexivity.
    + destruct (phrase_boundary title_lower dish_lower); [reflexivity|].
      destruct (Py.contains dish_lower title_lower); [reflexivity|].
      destruct (Py.contains dish_lower search_text_lower); reflexivity.
  - unfold tier, first_satisfied. split.
    + intros H.
      destruct (List.find
                  (satisfied first_occurrence_is_last title_lower
                     search_text_lower dish_lower) priority) as [t|] eqn:E;
        [exists t; reflexivity|].
      exfalso. destruct H as [H|H].
      * pose proof (find_none _ _ E TitleSubstring) as N. simpl in N.
        rewrite H in N. assert (false = true) by (symmetry; apply N; tauto).
        discriminate.
      * pose proof (find_none _ _ E SearchTextOnly) as N. simpl in N.
        rewrite H in N. assert (false = true) by (symmetry; apply N; tauto).
        discriminate.
    + assert (Hc : phrase_boundary title_lower dish_lower = true ->
                   Py.contains dish_lower title_lower = true).
      { intros H. rewrite <- Hp in H. now apply padded_contains. }
      intros [t E]. apply find_some in E. destruct E as [_ E].
      destruct t; simpl in E;
        repeat (apply andb_prop in E; destruct E as [E ?]).
      * left. apply String.eqb_eq in E. subst. apply contains_refl.
      * left. apply Hc, Hw, E.
      * left. apply Hc, Hw, E.
      * left. apply Hc, Hw, E.
      * left. apply Hc, E.
      * left. exact E.
      * right. exact E.
Qed.

Lemma dish_name_fires_first_tier_witness :
  "Soup" <> ""
  /\ single_spaced "chicken soup" = true
  /\ single_spaced (Py.lower "Soup") = true
  /\ dish_name_scoring "chicken soup" "" (Some "Soup") = points LastWord.
Proof.
  assert (H1 : "Soup" <> "") by discriminate.
  assert (H2 : single_spaced "chicken soup" = true) by reflexivity.
  assert (H3 : single_spaced (Py.lower "Soup") = true) by reflexivity.
  split; [exact H1|]. split; [exact H2|]. split; [exact H3|].
  destruct (dish_name_fires_first_tier "chicken soup" "" "Soup" H1 H2 H3)
    as [H _].
  rewrite H. reflexivity.
Defined.

(** In the title "x soup y soup" the dish "soup" is not the first word
    and is the last word, so the tier the claim names is the last-word
    tier (65); the source scores the first occurrence, an interior word
    (55). *)
Lemma dish_last_word_scored_as_interior :
  claimed_tier "x soup y soup" "" "soup" = Some LastWord
  /\ points LastWord = 65
  /\ dish_name_scoring "x soup y soup" "" (Some "soup") = 55.
Proof. repeat split; reflexivity. Qed.

(** Every dish name the parser can return is written with single
    spaces. *)
Lemma dish_names_single_spaced :
  forallb single_spaced Vocabulary.DISH_NAMES = true.
Proof. vm_compute. reflexivity. Qed.

(** A title whose words a tab or a line end separates is outside the
    amended claim: the source looks for the dish between space
    characters, so the title word "soup" counts as a substring. *)
Example dish_after_tab_scored_as_substring :
  let title := "chicken" +:+ String (ascii_of_nat 9) "soup" in
  single_spaced title = false
  /\ Py.split title = ["chicken"; "soup"]
  /\ dish_name_scoring title "" (Some "soup") = 35
  /\ dish_name_scoring ("chicken soup" +:+ String (ascii_of_nat 10) "") ""
                       (Some "soup") = 35.
Proof. vm_compute. repeat split; reflexivity. Qed.

End DishNameClaim.

(** ** SQL conditions *)

Section SqlFacts.

Lemma like_percent (s : string) : Sql.like "%" s = true.
Proof.
  induction s as [|c s IH]; [reflexivity|].
  simpl in *. exact IH.
Qed.

Lemma like_any (p s : string) :
  Sql.like (String "%" p) s
  = Sql.like p s
    || match s with
       | EmptyString => false
       | String _ s' => Sql.like (String "%" p) s'
       end.
Proof. destruct s; reflexivity. Qed.

Lemma like_plain_cons (c : ascii) (p s : string) :
  Sql.is_meta c = false ->
  Sql.like (String c p) s
  = match s with
    | String d s' => Ascii.eqb c d && Sql.like p s'
    | EmptyString => false
    end.
Proof.
  unfold Sql.is_meta. intros H.
  apply orb_false_elim in H. destruct H as [H H3].
  apply orb_false_elim in H. destruct H as [H1 H2].
  simpl. rewrite H1, H2, H3. reflexivity.
Qed.

(** A pattern without metacharacters followed by [%] matches the texts
    that start with it. *)
Lemma like_prefix (needle s : string) :
  Sql.plain needle = true ->
  Sql.like (needle +:+ "%") s = Py.startswith needle s.
Proof.
  revert s. induction needle as [|c n IH]; intros s H.
  - rewrite append_nil_l. apply like_percent.
  - simpl in H. apply andb_prop in H. destruct H as [Hc Hn].
    apply negb_true_iff in Hc. rewrite append_cons, (like_plain_cons c _ s Hc).
    destruct s as [|d s]; [reflexivity|]. simpl. now rewrite IH.
Qed.

(** [LIKE '%needle%'] is the substring test when the needle has no
    metacharacter. *)
Lemma like_contains (needle s : string) :
  Sql.plain needle = true ->
  Sql.like ("%" +:+ needle +:+ "%") s = Py.contains needle s.
Proof.
  intros H. rewrite append_cons, append_nil_l.
  induction s as [|c s IH]; rewrite like_any, contains_unfold,
    (like_prefix needle _ H); [reflexivity|].
  now rewrite IH.
Qed.

Lemma holds_or (a b : Sql.tbool) :
  Sql.holds (Sql.or_ a b) = true -> a = Some true \/ b = Some true.
Proof. destruct a as [[]|], b as [[]|]; simpl; intros H; auto; discriminate. Qed.

Lemma lower_like_true (column : option string) (needle : string) :
  Sql.plain needle = true ->
  Sql.lower_like column needle = Some true ->
  exists s, column = Some s /\ Py.contains needle (Py.lower s) = true.
Proof.
  intros Hp H. destruct column as [s|]; [|discriminate].
  simpl in H. injection H as H. rewrite (like_contains _ _ Hp) in H.
  exists s. split; [reflexivity | exact H].
Qed.

End SqlFacts.

(** ** Database mode: what a returned match has passed *)

Section DatabaseSearch.

Import Models RecipeMatcher.

Lemma in_firstn {A} (x : A) (n : nat) (l : list A) :
  In x (firstn n l) -> In x l.
Proof.
  revert l. induction n as [|n IH]; intros [|y l] H; simpl in *; try tauto.
  destruct H as [H|H]; [left; exact H | right; apply IH; exact H].
Qed.

Lemma in_skipn {A} (x : A) (n : nat) (l : list A) :
  In x (skipn n l) -> In x l.
Proof.
  revert l. induction n as [|n IH]; intros [|y l] H; simpl in *; try tauto.
  right. apply IH. exact H.
Qed.

Lemma in_insert_desc (x y : ScoredMatch) (l : list ScoredMatch) :
  In x (insert_desc y l) <-> x = y \/ In x l.
Proof.
  induction l as [|z l IH]; simpl.
  - intuition congruence.
  - destruct (sm_points z <=? sm_points y); simpl; rewrite ?IH;
      intuition congruence.
Qed.

Lemma in_sort_desc (x : ScoredMatch) (l : list ScoredMatch) :
  In x (sort_desc l) <-> In x l.
Proof.
  unfold sort_desc. induction l as [|y l IH]; simpl; [tauto|].
  rewrite in_insert_desc, IH. intuition congruence.
Qed.

(** Every returned match is a row of the table that passed all the
    filters, with its positive score. *)
Lemma search_database_sound (db : list Recipe) (pq : ParsedQuery)
    (max_results offset : nat) (m : ScoredMatch) :
  In m (search_database db pq max_results offset) ->
  In (sm_recipe m) db
  /\ hard_filters pq (sm_recipe m) = true
  /\ sm_points m = calculate_recipe_score (sm_recipe m) pq
  /\ 0 < sm_points m.
Proof.
  unfold search_database. intros H.
  apply in_firstn, in_skipn in H. apply (proj1 (in_sort_desc _ _)) in H.
  unfold score_candidates in H. apply in_flat_map in H.
  destruct H as (r & Hr & Hm). apply in_firstn, filter_In in Hr.
  destruct (0 <? calculate_recipe_score r pq) eqn:E; [|destruct Hm].
  destruct Hm as [<-|[]]. simpl. apply Z.ltb_lt in E. tauto.
Qed.

Lemma hard_filters_inv (pq : ParsedQuery) (r : Recipe) :
  hard_filters pq r = true ->
  (forall exc, In exc (excluded_ingredients pq) ->
               Sql.holds (exclusion_condition r exc) = true)
  /\ nutrition_filter (nutrition pq) r = true
  /\ (forall ing, In ing (pq_ingredients pq) ->
                  Sql.holds (presence_condition r ing) = true)
  /\ (forall dish, Py.truthy (dish_name pq) = Some dish ->
                   Sql.holds (presence_condition r dish) = true).
Proof.
  unfold hard_filters. intros H.
  repeat (apply andb_prop in H; destruct H as [H ?]).
  rewrite forallb_forall in *. repeat split; try assumption.
  intros dish E. rewrite E in *. assumption.
Qed.

(** A row that passed the presence condition of a term without
    metacharacters has the term in its title or in its search text,
    both lower-cased. *)
Lemma presence_condition_contains (r : Recipe) (term : string) :
  Sql.plain (Py.lower term) = true ->
  Sql.holds (presence_condition r term) = true ->
  Py.contains (Py.lower term) (Py.lower (title r)) = true
  \/ exists text, search_text r = Some text
                  /\ Py.contains (Py.lower term) (Py.lower text) = true.
Proof.
  intros Hp H. unfold presence_condition in H. apply holds_or in H.
  destruct H as [H|H]; apply (lower_like_true _ _ Hp) in H;
    destruct H as (s & E & H).
  - left. injection E as <-. exact H.
  - right. exists s. split; assumption.
Qed.

End DatabaseSearch.

(** ** The ingredient lists of the parser *)

Section GrowingLists.

(** The loops of [_extract_ingredients] grow a list by appending the
    elements a test lets through. *)
Variable test : list string -> string -> bool.

Let step (acc : list string) (x : string) : list string :=
  if test acc x then (acc ++ [x])%list else acc.

Lemma grow_incl (l acc : list string) (x : string) :
  In x acc -> In x (fold_left step l acc).
Proof.
  revert acc. induction l as [|y l IH]; intros acc H; simpl; [exact H|].
  apply IH. unfold step. destruct (test acc y); [apply in_or_app; left|];
    exact H.
Qed.

Lemma grow_inv (l acc : list string) (x : string) :
  In x (fold_left step l acc) ->
  In x acc \/ (In x l /\ exists acc', test acc' x = true).
Proof.
  revert acc. induction l as [|y l IH]; intros acc H; simpl in *; [tauto|].
  apply IH in H. destruct H as [H|[H1 H2]]; [|tauto].
  unfold step in H. destruct (test acc y) eqn:E; [|tauto].
  apply in_app_or in H. destruct H as [H|[<-|[]]]; [tauto|].
  right. split; [tauto | exists acc; exact E].
Qed.

Lemma NoDup_snoc (acc : list string) (x : string) :
  List.NoDup acc -> ~ In x acc -> List.NoDup (acc ++ [x])%list.
Proof.
  induction acc as [|y acc IH]; simpl; intros H Hx.
  - apply List.NoDup_cons; [intros [] | apply List.NoDup_nil].
  - inversion H as [|? ? Hy Hacc]; subst. apply List.NoDup_cons.
    + intros Hin. apply in_app_or in Hin. destruct Hin as [Hin|[->|[]]];
        [exact (Hy Hin) | apply Hx; left; reflexivity].
    + apply IH; [exact Hacc | intros Hin; apply Hx; right; exact Hin].
Qed.

Lemma grow_NoDup (l acc : list string) :
  (forall acc x, test acc x = true -> ~ In x acc) ->
  List.NoDup acc -> List.NoDup (fold_left step l acc).
Proof.
  intros Ht. revert acc. induction l as [|y l IH]; intros acc H; simpl;
    [exact H|].
  apply IH. unfold step. destruct (test acc y) eqn:E; [|exact H].
  apply NoDup_snoc; [exact H | exact (Ht _ _ E)].
Qed.

(** An element that passes the test whenever it is not yet collected
    ends up collected. *)
Lemma grow_complete (l acc : list string) (x : string) :
  In x l -> (forall acc', ~ In x acc' -> test acc' x = true) ->
  In x (fold_left step l acc).
Proof.
  intros Hx Ht. revert acc. induction l as [|y l IH]; intros acc; simpl;
    [destruct Hx|].
  destruct Hx as [->|Hx]; [|apply IH; exact Hx].
  apply grow_incl. unfold step.
  destruct (in_dec string_dec x acc) as [Hin|Hout].
  - destruct (test acc x); [apply in_or_app; left|]; exact Hin.
  - rewrite (Ht acc Hout). apply in_or_app. right. left. reflexivity.
Qed.

End GrowingLists.

Section IngredientLists.

Import Vocabulary QueryParser.

Lemma NoDup_firstn (n : nat) (l : list string) :
  List.NoDup l -> List.NoDup (firstn n l).
Proof.
  revert l. induction n as [|n IH]; intros [|x l] H; simpl;
    try apply List.NoDup_nil.
  inversion H as [|? ? Hx Hl]; subst. apply List.NoDup_cons.
  - intros Hin. apply Hx. exact (in_firstn _ _ _ Hin).
  - apply IH. exact Hl.
Qed.

Lemma resolves_fresh (item : string) (acc : list string) (x : string) :
  resolves item acc x = true -> ~ In x acc.
Proof.
  unfold resolves. intros H Hin. apply (proj2 (mem_In x acc)) in Hin.
  rewrite Hin in H. simpl in H. rewrite andb_false_r in H. discriminate.
Qed.

End IngredientLists.

Section Loops.

Context {A B : Type} (P : A -> Prop) (f : A -> B -> A).

(** What holds at the start of a loop and is kept by its body holds at
    its end. *)
Lemma fold_left_invariant (l : list B) (a : A) :
  P a -> (forall a b, P a -> P (f a b)) -> P (fold_left f l a).
Proof.
  intros Ha Hf. revert a Ha.
  induction l as [|b l IH]; intros a Ha; cbn [fold_left]; [exact Ha|].
  apply IH, Hf, Ha.
Qed.

(** What the body establishes at one element and keeps afterwards holds
    at the end of the loop. *)
Lemma fold_left_reaches (l : list B) (b : B) (a : A) :
  In b l -> (forall a, P (f a b)) -> (forall a b', P a -> P (f a b')) ->
  P (fold_left f l a).
Proof.
  intros Hb H1 H2. revert a.
  induction l as [|b' l IH]; intros a; cbn [fold_left]; [destruct Hb|].
  destruct Hb as [->|Hb]; [|apply IH; exact Hb].
  apply fold_left_invariant; [apply H1 | exact H2].
Qed.

End Loops.

Section IngredientLoops.

Import Vocabulary QueryParser.

(** The loops run over the ingredient vocabulary; the facts about them
    hold for any list in its place. *)
Lemma resolve_item_NoDup (item : string) (acc : list string) :
  List.NoDup acc -> List.NoDup (resolve_item item acc).
Proof.
  unfold resolve_item. generalize COMMON_INGREDIENTS. intros l H.
  apply grow_NoDup; [apply resolves_fresh | exact H].
Qed.

Lemma resolve_item_incl (item : string) (acc : list string) (x : string) :
  In x acc -> In x (resolve_item item acc).
Proof.
  unfold resolve_item. generalize COMMON_INGREDIENTS. intros l H.
  apply grow_incl. exact H.
Qed.

Lemma resolve_item_inv (item : string) (acc : list string) (x : string) :
  In x (resolve_item item acc) ->
  In x acc \/ (In x COMMON_INGREDIENTS /\ Py.mem x skip_words = false).
Proof.
  unfold resolve_item. generalize COMMON_INGREDIENTS. intros l H.
  apply grow_inv in H. destruct H as [H|[H1 [acc' H2]]]; [tauto|].
  right. split; [exact H1|].
  unfold resolves in H2. apply andb_prop in H2. destruct H2 as [_ H2].
  apply andb_prop in H2. destruct H2 as [_ H2].
  now apply negb_true_iff in H2.
Qed.

Lemma resolve_item_complete (item : string) (acc : list string) (ing : string) :
  In ing COMMON_INGREDIENTS ->
  Py.contains item ing || Py.contains ing item = true ->
  Py.mem ing skip_words = false ->
  In ing (resolve_item item acc).
Proof.
  unfold resolve_item. generalize COMMON_INGREDIENTS.
  intros l Hing Hmatch Hskip.
  apply grow_complete; [exact Hing|].
  intros acc' Hout. unfold resolves. rewrite Hmatch, Hskip. simpl.
  destruct (Py.mem ing acc') eqn:E; [|reflexivity].
  apply mem_In in E. contradiction.
Qed.

Lemma find_excluded_NoDup (items : list string) :
  List.NoDup (find_excluded items).
Proof.
  unfold find_excluded. apply (fold_left_invariant (@List.NoDup string)).
  - apply List.NoDup_nil.
  - intros acc item H. apply resolve_item_NoDup, H.
Qed.

Lemma find_excluded_vocabulary (items : list string) (x : string) :
  In x (find_excluded items) ->
  In x COMMON_INGREDIENTS /\ Py.mem x skip_words = false.
Proof.
  revert x. unfold find_excluded.
  apply (fold_left_invariant
           (fun acc => forall x, In x acc ->
              In x COMMON_INGREDIENTS /\ Py.mem x skip_words = false)).
  - intros x [].
  - intros acc item IH x H. apply resolve_item_inv in H.
    destruct H as [H|H]; [exact (IH x H) | exact H].
Qed.

(** Every ingredient a captured phrase resolves to is excluded, unless
    it is a stop word. *)
Lemma find_excluded_complete (items : list string) (item ing : string) :
  In item items -> In ing COMMON_INGREDIENTS ->
  Py.contains item ing || Py.contains ing item = true ->
  Py.mem ing skip_words = false ->
  In ing (find_excluded items).
Proof.
  intros Hitem Hing Hmatch Hskip.
  unfold find_excluded.
  apply (fold_left_reaches (fun acc => In ing acc) _ items item [] Hitem).
  - intros acc. apply resolve_item_complete; assumption.
  - intros acc i H. apply resolve_item_incl, H.
Qed.

Lemma find_included_NoDup (query : string) (excluded : list string) :
  List.NoDup (find_included query excluded).
Proof.
  unfold find_included. generalize COMMON_INGREDIENTS. intros l.
  apply grow_NoDup; [|apply List.NoDup_nil].
  intros acc x H Hin. unfold includes in H.
  apply (proj2 (mem_In x acc)) in Hin. rewrite Hin in H. simpl in H.
  rewrite !andb_false_r in H. discriminate.
Qed.

Lemma find_included_inv (query : string) (excluded : list string) (x : string) :
  In x (find_included query excluded) ->
  In x COMMON_INGREDIENTS
  /\ Py.contains x query = true
  /\ Py.mem x DISH_NAMES = false
  /\ is_negated query excluded x = false.
Proof.
  unfold find_included. generalize COMMON_INGREDIENTS. intros l H.
  apply grow_inv in H. destruct H as [[]|[H1 [acc H2]]].
  unfold includes in H2.
  apply andb_prop in H2. destruct H2 as [H2 H3].
  apply andb_prop in H2. destruct H2 as [H2 H4].
  apply andb_prop in H3. destruct H3 as [H3 _].
  apply negb_true_iff in H3, H4. tauto.
Qed.

(** The stop words among the ingredients are dish names, which are never
    required. *)
Lemma skipped_ingredient_is_dish (ing : string) :
  In ing COMMON_INGREDIENTS -> Py.mem ing skip_words = true ->
  Py.mem ing DISH_NAMES = true.
Proof.
  assert (G : forallb (fun ing => implb (Py.mem ing skip_words)
                                        (Py.mem ing DISH_NAMES))
                      COMMON_INGREDIENTS = true) by (vm_compute; reflexivity).
  rewrite forallb_forall in G. intros H E. specialize (G ing H).
  rewrite E in G. exact G.
Qed.

End IngredientLoops.

Section ParserInvariant.

Import Vocabulary QueryParser.

Variable correct : string -> string * list (string * string).

Lemma parse_ingredients (query : string) (correct_spelling : bool) :
  let pq := parse correct query correct_spelling in
  let text := parsed_text correct query correct_spelling in
  pq_ingredients pq = firstn 10 (find_included text (find_excluded (excluded_items text)))
  /\ excluded_ingredients pq = firstn 10 (find_excluded (excluded_items text)).
Proof.
  unfold parse, parsed_text.
  destruct (corrected correct query correct_spelling) as [q c].
  unfold extract_ingredients, ingredients_of_items.
  cbn [fst pq_ingredients excluded_ingredients]. split; reflexivity.
Qed.

(** C7 (as amended).  For every query text, with or without spelling
    correction, the parsed query has no ingredient in both the required
    and the excluded list; an ingredient of the vocabulary that a phrase
    captured by the scan of the negation patterns resolves to (either
    contains the other) is never required; an ingredient whose first
    occurrence has a negation word in the 30 characters before it is
    never required; both lists are free of duplicates and hold at most
    10 entries. *)
Theorem parse_ingredient_lists (query : string) (correct_spelling : bool) :
  let pq := parse correct query correct_spelling in
  let text := parsed_text correct query correct_spelling in
  (forall ing, In ing (pq_ingredients pq) ->
               ~ In ing (excluded_ingredients pq))
  /\ (forall item ing,
        In item (excluded_items text) -> In ing COMMON_INGREDIENTS ->
        Py.contains item ing || Py.contains ing item = true ->
        ~ In ing (pq_ingredients pq))
  /\ (forall neg ing,
        In neg NEGATION_WORDS ->
        Py.contains neg (negation_context text ing) = true ->
        ~ In ing (pq_ingredients pq))
  /\ List.NoDup (pq_ingredients pq)
  /\ List.NoDup (excluded_ingredients pq)
  /\ (length (pq_ingredients pq) <= 10)%nat
  /\ (length (excluded_ingredients pq) <= 10)%nat.
Proof.
  intros pq text.
  destruct (parse_ingredients query correct_spelling) as [Ei Ee].
  fold pq text in Ei, Ee. rewrite Ei, Ee.
  set (excluded := find_excluded (excluded_items text)).
  repeat split.
  - intros ing Hi He. apply in_firstn in Hi, He.
    apply find_included_inv in Hi. destruct Hi as (_ & _ & _ & Hn).
    unfold is_negated in Hn. apply orb_false_elim in Hn.
    destruct Hn as [_ Hn]. apply (proj2 (mem_In ing excluded)) in He.
    congruence.
  - intros item ing Hitem Hing Hmatch Hi. apply in_firstn in Hi.
    apply find_included_inv in Hi. destruct Hi as (_ & _ & Hdish & Hn).
    unfold is_negated in Hn. apply orb_false_elim in Hn.
    destruct Hn as [_ Hn].
    destruct (Py.mem ing skip_words) eqn:Hskip.
    + rewrite (skipped_ingredient_is_dish ing Hing Hskip) in Hdish.
      discriminate.
    + pose proof (find_excluded_complete _ item ing Hitem Hing Hmatch Hskip)
        as He.
      apply (proj2 (mem_In ing _)) in He. fold excluded in He. congruence.
  - intros neg ing Hneg Hctx Hi. apply in_firstn in Hi.
    apply find_included_inv in Hi. destruct Hi as (_ & _ & _ & Hn).
    unfold is_negated in Hn. apply orb_false_elim in Hn.
    destruct Hn as [Hn _].
    assert (Hex : existsb (fun neg => Py.contains neg
                                        (negation_context text ing))
                          NEGATION_WORDS = true).
    { apply existsb_exists. exists neg. split; assumption. }
    congruence.
  - apply NoDup_firstn, find_included_NoDup.
  - apply NoDup_firstn, find_excluded_NoDup.
  - apply firstn_le_length.
  - apply firstn_le_length.
Qed.

End ParserInvariant.

Section ParserExamples.

Import QueryParser.

(** The first scenario of the specification. *)
Example chicken_without_onion :
  let pq := parse (fun q => (q, [])) "Chicken without onion" false in
  pq_ingredients pq = ["chicken"]
  /\ excluded_ingredients pq = ["onion"; "onions"; "onion powder"].
Proof. vm_compute. split; reflexivity. Qed.

(** The second scenario. *)
Example high_protein_breakfast_no_eggs :
  let pq := parse (fun q => (q, [])) "high protein breakfast no eggs" false in
  nutrition pq !! "protein" = Some {| b_min := Some 15%Q; b_max := None |}
  /\ meal_type pq = Some "breakfast"
  /\ excluded_ingredients pq = ["egg"; "eggs"].
Proof. vm_compute. repeat split; reflexivity. Qed.

(** C7 as worded fails.  The query holds the negated mention
    [no chicken], which the negation patterns capture when they read it
    on its own, and a positive mention of chicken at its start.  The scan
    of the whole text captures [onion no] only: the two-word phrase takes
    the second [no] with it.  Nothing stands before the first occurrence
    of chicken, so chicken is required and not excluded. *)
Lemma negated_mention_still_required :
  let text := "chicken soup no onion no chicken" in
  let pq := parse (fun q => (q, [])) text false in
  Py.contains "no chicken" text = true
  /\ excluded_items "no chicken" = ["chicken"]
  /\ Py.find "chicken" text = Some 0%nat
  /\ excluded_items text = ["onion no"]
  /\ pq_ingredients pq = ["chicken"]
  /\ excluded_ingredients pq = ["onion"].
Proof. vm_compute. repeat split; reflexivity. Qed.

End ParserExamples.

(** ** Required ingredients *)

Section RequiredIngredients.

Import Models Vocabulary QueryParser RecipeMatcher.

(** The words of the ingredient vocabulary are lower-case and hold no
    [LIKE] metacharacter. *)
Lemma vocabulary_plain (ing : string) :
  In ing COMMON_INGREDIENTS ->
  Py.lower ing = ing /\ Sql.plain ing = true.
Proof.
  assert (G : forallb (fun ing => String.eqb (Py.lower ing) ing
                                  && Sql.plain ing)
                      COMMON_INGREDIENTS = true) by (vm_compute; reflexivity).
  rewrite forallb_forall in G. intros H. specialize (G ing H).
  apply andb_prop in G. destruct G as [G1 G2].
  apply String.eqb_eq in G1. tauto.
Qed.

Lemma parse_vocabulary correct (query : string) (correct_spelling : bool)
    (ing : string) :
  let pq := parse correct query correct_spelling in
  In ing (pq_ingredients pq) \/ In ing (excluded_ingredients pq) ->
  In ing COMMON_INGREDIENTS.
Proof.
  intros pq H.
  destruct (parse_ingredients correct query correct_spelling) as [Ei Ee].
  fold pq in Ei, Ee. rewrite Ei, Ee in H. destruct H as [H|H];
    apply in_firstn in H.
  - apply find_included_inv in H. destruct H as [H _]. exact H.
  - apply find_excluded_vocabulary in H. destruct H as [H _]. exact H.
Qed.

(** In database mode a returned match has every required ingredient
    without metacharacters in its title or in its search text. *)
Lemma search_database_required (db : list Recipe) (pq : ParsedQuery)
    (max_results offset : nat) (m : ScoredMatch) (ing : string) :
  In m (search_database db pq max_results offset) ->
  In ing (pq_ingredients pq) ->
  Sql.plain (Py.lower ing) = true ->
  Py.contains (Py.lower ing) (Py.lower (title (sm_recipe m))) = true
  \/ exists text, search_text (sm_recipe m) = Some text
                  /\ Py.contains (Py.lower ing) (Py.lower text) = true.
Proof.
  intros Hm Hing Hp. apply search_database_sound in Hm.
  destruct Hm as (_ & Hf & _). apply hard_filters_inv in Hf.
  destruct Hf as (_ & _ & Hf & _).
  apply presence_condition_contains; [exact Hp | apply Hf; exact Hing].
Qed.

(** C1 (as amended).  For every query and every table of recipes, each
    match returned by the database mode for the parsed query contains
    every required ingredient of the parsed query, as a substring of its
    lower-cased title or of its lower-cased search text. *)
Theorem search_database_has_all_required correct (query : string)
    (correct_spelling : bool) (db : list Recipe) (max_results offset : nat)
    (m : ScoredMatch) (ing : string) :
  let pq := parse correct query correct_spelling in
  In m (search_database db pq max_results offset) ->
  In ing (pq_ingredients pq) ->
  Py.contains ing (Py.lower (title (sm_recipe m))) = true
  \/ exists text, search_text (sm_recipe m) = Some text
                  /\ Py.contains ing (Py.lower text) = true.
Proof.
  intros pq Hm Hing.
  assert (Hv : In ing COMMON_INGREDIENTS)
    by (apply (parse_vocabulary correct query correct_spelling); left;
        exact Hing).
  destruct (vocabulary_plain ing Hv) as [El Hp].
  pose proof (search_database_required db pq max_results offset m ing Hm Hing)
    as H.
  rewrite El in H. exact (H Hp).
Qed.

End RequiredIngredients.

Section RequiredIngredientsExamples.

Import Models QueryParser RecipeMatcher MemoryMatcher Samples.

Lemma search_database_has_all_required_witness :
  let pq := parse no_correction "chicken soup" false in
  let m := {| sm_recipe := chicken_soup; sm_points := 154 |} in
  In m (search_database [chicken_soup] pq 10 0)
  /\ In "chicken" (pq_ingredients pq)
  /\ (Py.contains "chicken" (Py.lower (title (sm_recipe m))) = true
      \/ exists text, search_text (sm_recipe m) = Some text
                      /\ Py.contains "chicken" (Py.lower text) = true).
Proof.
  intros pq m.
  assert (Hm : In m (search_database [chicken_soup] pq 10 0))
    by (vm_compute; left; reflexivity).
  assert (Hi : In "chicken" (pq_ingredients pq))
    by (vm_compute; left; reflexivity).
  split; [exact Hm|]. split; [exact Hi|].
  exact (search_database_has_all_required no_correction "chicken soup" false
           [chicken_soup] 10 0 m "chicken" Hm Hi).
Defined.

(** The in-memory mode scores the required ingredients but does not
    filter on them: for the query "chicken soup" it returns a tomato
    soup that has no chicken in its title or text. *)
Lemma search_memory_returns_match_without_required :
  let pq := parse no_correction "chicken soup" false in
  exists m,
    search_memory stable_argsort None [tomato_soup] pq 10 true None = Some [m]
    /\ mm_recipe m = tomato_soup
    /\ In "chicken" (pq_ingredients pq)
    /\ Py.contains "chicken" (Py.lower (m_title tomato_soup)) = false
    /\ Py.contains "chicken" (recipe_to_text tomato_soup) = false.
Proof.
  intros pq. eexists. split; [vm_compute; reflexivity|].
  split; [reflexivity|]. split; [vm_compute; left; reflexivity|].
  split; vm_compute; reflexivity.
Qed.

End RequiredIngredientsExamples.

(** ** Database mode: exclusions, nutrition bounds and ranking *)

Section DatabaseResults.

Import Models RecipeMatcher.

Lemma exclusion_condition_inv (r : Recipe) (exc : string) :
  Sql.holds (exclusion_condition r exc) = true ->
  Sql.lower_like (search_text r) (Py.lower exc) = Some false.
Proof.
  unfold exclusion_condition.
  destruct (Sql.lower_like (search_text r) (Py.lower exc)) as [[]|],
    (Sql.lower_like (Some (title r)) (Py.lower exc)) as [[]|];
    simpl; intros H; try discriminate; reflexivity.
Qed.


Lemma map_to_list_In (req : gmap string Bounds) (n : string) (b : Bounds) :
  In (n, b) (map_to_list req) <-> req !! n = Some b.
Proof. rewrite <- list_elem_of_In. apply elem_of_map_to_list. Qed.

(** The nutrition filter of the database mode passes exactly the rows
    that have a value for every constrained nutrient column, within the
    declared bounds. *)
Lemma nutrition_filter_spec (req : gmap string Bounds) (r : Recipe) :
  nutrition_filter req r = true <->
  forall n b col, req !! n = Some b -> column n = Some col ->
    exists v, col r = Some v
              /\ (forall lo, b_min b = Some lo -> (lo <= v)%Q)
              /\ (forall hi, b_max b = Some hi -> (v <= hi)%Q).
Proof.
  unfold nutrition_filter. rewrite forallb_forall. split.
  - intros H n b col Hn Hc. specialize (H (n, b) (proj2 (map_to_list_In _ _ _) Hn)).
    unfold nutrition_condition in H. rewrite Hc in H.
    apply andb_prop in H. destruct H as [H Hmax].
    apply andb_prop in H. destruct H as [Hv Hmin].
    destruct (col r) as [v|]; [|discriminate]. exists v.
    split; [reflexivity|]. split.
    + intros lo E. rewrite E in Hmin. simpl in Hmin.
      apply Qle_bool_iff. destruct (Qle_bool lo v); [reflexivity|discriminate].
    + intros hi E. rewrite E in Hmax. simpl in Hmax.
      apply Qle_bool_iff. destruct (Qle_bool v hi); [reflexivity|discriminate].
  - intros H [n b] Hin. apply map_to_list_In in Hin.
    unfold nutrition_condition. destruct (column n) as [col|] eqn:Hc;
      [|reflexivity].
    destruct (H n b col Hin Hc) as (v & Ev & Hlo & Hhi). rewrite Ev. simpl.
    apply andb_true_intro. split.
    + destruct (b_min b) as [lo|]; [|reflexivity]. simpl.
      rewrite (proj2 (Qle_bool_iff lo v) (Hlo lo eq_refl)). reflexivity.
    + destruct (b_max b) as [hi|]; [|reflexivity]. simpl.
      rewrite (proj2 (Qle_bool_iff v hi) (Hhi hi eq_refl)). reflexivity.
Qed.


End DatabaseResults.

Section DatabaseResultsExamples.

Import Models QueryParser RecipeMatcher Samples.




End DatabaseResultsExamples.

(** ** Database mode: the ranking *)

Section RankingFacts.

Import Models RecipeMatcher Ranking.

Lemma insert_desc_sorted (x : ScoredMatch) (l : list ScoredMatch) :
  Sorted ranked l -> Sorted ranked (insert_desc x l).
Proof.
  induction l as [|y l IH]; intros H; simpl.
  - repeat constructor.
  - destruct (sm_points y <=? sm_points x) eqn:E.
    + apply Z.leb_le in E. constructor; [exact H|]. constructor. exact E.
    + apply Z.leb_gt in E. inversion H as [|? ? Hs Hh]; subst.
      constructor; [apply IH; exact Hs|].
      destruct l as [|z l]; simpl.
      * constructor. unfold ranked. lia.
      * destruct (sm_points z <=? sm_points x).
        -- constructor. unfold ranked. lia.
        -- inversion Hh; subst. constructor. assumption.
Qed.

Lemma sort_desc_sorted (l : list ScoredMatch) : Sorted ranked (sort_desc l).
Proof.
  unfold sort_desc. induction l as [|x l IH]; simpl; [constructor|].
  apply insert_desc_sorted, IH.
Qed.

Lemma sorted_skipn (n : nat) (l : list ScoredMatch) :
  Sorted ranked l -> Sorted ranked (skipn n l).
Proof.
  revert l. induction n as [|n IH]; intros [|x l] H; simpl; try assumption.
  inversion H; subst. apply IH. assumption.
Qed.

Lemma sorted_firstn (n : nat) (l : list ScoredMatch) :
  Sorted ranked l -> Sorted ranked (firstn n l).
Proof.
  revert l. induction n as [|n IH]; intros [|x l] H; simpl; try constructor.
  - inversion H; subst. apply IH. assumption.
  - inversion H as [|? ? Hs Hh]; subst.
    destruct n, l; simpl; constructor. inversion Hh; subst. assumption.
Qed.

Lemma insert_desc_length (x : ScoredMatch) (l : list ScoredMatch) :
  length (insert_desc x l) = S (length l).
Proof.
  induction l as [|y l IH]; simpl; [reflexivity|].
  destruct (sm_points y <=? sm_points x); simpl; [reflexivity|].
  now rewrite IH.
Qed.

Lemma sort_desc_length (l : list ScoredMatch) :
  length (sort_desc l) = length l.
Proof.
  unfold sort_desc. induction l as [|x l IH]; simpl; [reflexivity|].
  now rewrite insert_desc_length, IH.
Qed.

Lemma score_candidates_length (pq : ParsedQuery) (l : list Recipe) :
  (length (score_candidates pq l) <= length l)%nat.
Proof.
  unfold score_candidates. induction l as [|r l IH]; simpl; [lia|].
  destruct (0 <? calculate_recipe_score r pq); simpl; lia.
Qed.




End RankingFacts.

(** ** In-memory mode: the mask and the results *)

Section MemoryResults.

Import MemoryMatcher.

#[local] Open Scope Q_scope.

Lemma map_to_list_In' {V} (req : gmap string V) (n : string) (b : V) :
  In (n, b) (map_to_list req) <-> req !! n = Some b.
Proof. rewrite <- list_elem_of_In. apply elem_of_map_to_list. Qed.

(** [_nutrition_matches] accepts a recipe exactly when each value it has
    for a constrained nutrient lies within the bounds; a nutrient the
    recipe has no value for constrains nothing. *)
Lemma nutrition_matches_spec (recipe : MemRecipe) (req : gmap string Bounds) :
  nutrition_matches recipe req = true <->
  forall n b v, req !! n = Some b -> m_values recipe !! n = Some v ->
    (forall lo, b_min b = Some lo -> lo <= v)
    /\ (forall hi, b_max b = Some hi -> v <= hi).
Proof.
  unfold nutrition_matches. rewrite forallb_forall. split.
  - intros H n b v Hn Hv.
    specialize (H (n, b) (proj2 (map_to_list_In' _ _ _) Hn)).
    unfold nutrient_matches in H. rewrite Hv in H.
    apply andb_prop in H. destruct H as [Hmin Hmax]. split.
    + intros lo E. rewrite E in Hmin. unfold Qlt_bool in Hmin.
      rewrite negb_involutive in Hmin. apply Qle_bool_iff. exact Hmin.
    + intros hi E. rewrite E in Hmax. unfold Qlt_bool in Hmax.
      rewrite negb_involutive in Hmax. apply Qle_bool_iff. exact Hmax.
  - intros H [n b] Hin. apply map_to_list_In' in Hin.
    unfold nutrient_matches.
    destruct (m_values recipe !! n) as [v|] eqn:Hv; [|reflexivity].
    destruct (H n b v Hin Hv) as [Hlo Hhi]. apply andb_true_intro. split.
    + destruct (b_min b) as [lo|]; [|reflexivity]. unfold Qlt_bool.
      rewrite negb_involutive. apply Qle_bool_iff, Hlo. reflexivity.
    + destruct (b_max b) as [hi|]; [|reflexivity]. unfold Qlt_bool.
      rewrite negb_involutive. apply Qle_bool_iff, Hhi. reflexivity.
Qed.

Lemma at_map_seq (f : nat -> Q) (n i : nat) :
  (i < n)%nat -> at_ (map f (seq 0 n)) i = f i.
Proof.
  intros H. unfold at_.
  rewrite (nth_indep _ 0 (f 0%nat)) by (rewrite length_map, length_seq; exact H).
  rewrite (map_nth f (seq 0 n) 0%nat i), seq_nth by exact H. reflexivity.
Qed.

Lemma at_apply_constraints (recipes : list MemRecipe) (pq : ParsedQuery)
    (i : nat) (r : MemRecipe) :
  nth_error recipes i = Some r ->
  at_ (apply_constraints recipes pq) i = if constraint_mask pq r then 1 else 0.
Proof.
  intros H. unfold at_, apply_constraints.
  revert i H. induction recipes as [|x l IH]; intros [|i] H; simpl in *;
    try discriminate.
  - injection H as ->. reflexivity.
  - apply IH. exact H.
Qed.

Section Collect.

Variables (recipes : list MemRecipe) (hybrid semantic rule : list Q).
Variables (use_tfidf : bool) (max_results : nat).

Lemma collect_sound (top : list nat) (results : list MemMatch) (m : MemMatch) :
  In m (collect recipes hybrid semantic rule use_tfidf max_results top results) ->
  In m results
  \/ (nth_error recipes (mm_id m) = Some (mm_recipe m)
      /\ Qle_bool (at_ hybrid (mm_id m)) 0 = false
      /\ mm_score m = at_ hybrid (mm_id m)).
Proof.
  revert results. induction top as [|idx top IH]; intros results H; simpl in H;
    [left; exact H|].
  destruct (Qle_bool (at_ hybrid idx) 0) eqn:E; [apply IH; exact H|].
  destruct (nth_error recipes idx) as [r|] eqn:Er; [|left; exact H].
  match type of H with
  | In m (if _ then ?l else _) =>
      assert (G : In m l -> In m results
                \/ (nth_error recipes (mm_id m) = Some (mm_recipe m)
                    /\ Qle_bool (at_ hybrid (mm_id m)) 0 = false
                    /\ mm_score m = at_ hybrid (mm_id m)))
  end.
  { intros Hin. apply in_app_or in Hin. destruct Hin as [Hin|[<-|[]]];
      [left; exact Hin|]. right. simpl. auto. }
  destruct (max_results <=? length (results ++ [_]))%nat; [exact (G H)|].
  apply IH in H. destruct H as [H|H]; [exact (G H) | right; exact H].
Qed.

Lemma collect_length (top : list nat) (results : list MemMatch) :
  (length results < max_results)%nat ->
  (length (collect recipes hybrid semantic rule use_tfidf max_results top results)
   <= max_results)%nat.
Proof.
  revert results. induction top as [|idx top IH]; intros results H; simpl;
    [lia|].
  destruct (Qle_bool (at_ hybrid idx) 0); [apply IH; exact H|].
  destruct (nth_error recipes idx) as [r|]; [|lia].
  destruct (max_results <=? length (results ++ [_]))%nat eqn:E.
  - rewrite length_app in *. simpl in *. lia.
  - apply Nat.leb_gt in E. apply IH. exact E.
Qed.

End Collect.


Lemma join_cons (sep p : string) (rest : list string) :
  Py.join sep (p :: rest)
  = p +:+ match rest with [] => "" | _ :: _ => sep +:+ Py.join sep rest end.
Proof.
  destruct rest; simpl; [now rewrite append_nil_r | reflexivity].
Qed.

(** The text of a recipe starts with its lower-cased title. *)
Lemma recipe_to_text_title (r : MemRecipe) :
  exists rest, recipe_to_text r = Py.lower (m_title r) +:+ rest.
Proof.
  unfold recipe_to_text. cbn [app]. rewrite join_cons, lower_app.
  eexists. reflexivity.
Qed.

Lemma recipe_text_has_title (r : MemRecipe) (x : string) :
  Py.contains x (Py.lower (m_title r)) = true ->
  Py.contains x (Py.lower (recipe_to_text r)) = true.
Proof.
  intros H. destruct (recipe_to_text_title r) as [rest E].
  unfold recipe_to_text in *. rewrite lower_idem, E.
  apply contains_app_l, H.
Qed.

Section SearchMemory.

Variable argsort : list Q -> list nat.
Variable tfidf : option (string -> list Q).

(** Every match of the in-memory mode is a recipe of the collection, at
    the position its id names, that passed the constraint mask. *)
Lemma search_memory_sound (recipes : list MemRecipe) (pq : ParsedQuery)
    (max_results : nat) (use_tfidf : bool) (query : option string)
    (results : list MemMatch) (m : MemMatch) :
  search_memory argsort tfidf recipes pq max_results use_tfidf query
  = Some results ->
  In m results ->
  nth_error recipes (mm_id m) = Some (mm_recipe m)
  /\ Qle_bool (mm_score m) 0 = false
  /\ constraint_mask pq (mm_recipe m) = true.
Proof.
  unfold search_memory. intros H Hm.
  destruct (calculate_rule_scores recipes pq) as [rule|]; [|discriminate].
  injection H as <-. apply collect_sound in Hm.
  destruct Hm as [[]|(Hr & Hs & Hsc)]. split; [exact Hr|].
  split; [rewrite Hsc; exact Hs|].
  assert (Hlt : (mm_id m < length recipes)%nat)
    by (apply nth_error_Some; rewrite Hr; discriminate).
  rewrite (at_map_seq _ _ _ Hlt), (at_apply_constraints _ _ _ _ Hr) in Hs.
  destruct (constraint_mask pq (mm_recipe m)); [reflexivity|].
  exfalso. rewrite Qmult_0_r in Hs. discriminate.
Qed.

Lemma search_memory_length (recipes : list MemRecipe) (pq : ParsedQuery)
    (max_results : nat) (use_tfidf : bool) (query : option string)
    (results : list MemMatch) :
  search_memory argsort tfidf recipes pq max_results use_tfidf query
  = Some results ->
  (length results <= max_results)%nat.
Proof.
  unfold search_memory. intros H.
  destruct (calculate_rule_scores recipes pq) as [rule|]; [|discriminate].
  injection H as <-. destruct max_results as [|n]; [simpl; lia|].
  apply collect_length. simpl. lia.
Qed.

End SearchMemory.

Section SearchMemoryTheorems.

Variable argsort : list Q -> list nat.
Variable tfidf : option (string -> list Q).




End SearchMemoryTheorems.

End MemoryResults.

Section MemoryResultsExamples.

Import QueryParser MemoryMatcher Samples.

#[local] Open Scope Q_scope.




End MemoryResultsExamples.

(** ** Rows written by the migration *)

Section MigratedRows.

Import Models RecipeMatcher.

(** The search text the migration writes starts with the lower-cased
    title. *)
Lemma search_text_of_has_title (t : string) (ings cats : list string)
    (x : string) :
  Py.contains x (Py.lower t) = true ->
  Py.contains x (Py.lower (Migrate.search_text_of t ings cats)) = true.
Proof.
  intros H. unfold Migrate.search_text_of. cbn [app map].
  rewrite join_cons, lower_app, lower_idem. apply contains_app_l, H.
Qed.



End MigratedRows.

(** ** Missing nutrition data in the two modes *)

Section MissingNutritionData.

Import Models QueryParser RecipeMatcher MemoryMatcher.

#[local] Open Scope Q_scope.

(** The value [v] is below the declared minimum or above the declared
    maximum. *)
Let violates (b : Bounds) (v : Q) : Prop :=
  (exists lo, b_min b = Some lo /\ v < lo)
  \/ (exists hi, b_max b = Some hi /\ hi < v).

Lemma violates_not_within (b : Bounds) (v : Q) :
  violates b v ->
  ~ ((forall lo, b_min b = Some lo -> lo <= v)
     /\ (forall hi, b_max b = Some hi -> v <= hi)).
Proof.
  intros [(lo & E & H)|(hi & E & H)] [Hlo Hhi].
  - exact (Qlt_not_le _ _ H (Hlo lo E)).
  - exact (Qlt_not_le _ _ H (Hhi hi E)).
Qed.



End MissingNutritionData.

(** ** The nutrition constraints of the parser *)

Section NutritionConstraints.

Import QueryParser NutritionMap.

Lemma setdefault_bound_lookup (n : string) (k : bound_kind) (v : Q)
    (nutr : gmap string Bounds) (n' : string) (k' : bound_kind) :
  bound k' (setdefault_bound n k v nutr !! n')
  = if decide (n = n') then
      (match k, k' with
       | Min, Min | Max, Max => Some v
       | _, _ => bound k' (nutr !! n')
       end)
    else bound k' (nutr !! n').
Proof.
  unfold setdefault_bound. destruct (decide (n = n')) as [<-|Hne].
  - rewrite lookup_insert_eq. destruct (nutr !! n) as [b|]; destruct k, k';
      reflexivity.
  - rewrite lookup_insert_ne by exact Hne. reflexivity.
Qed.

Lemma apply_modifier_other (nutr : gmap string Bounds)
    (m : bool * (string * bound_kind * Q)) (n : string) (k : bound_kind) :
  target m <> (n, k) ->
  bound k (apply_modifier nutr m !! n) = bound k (nutr !! n).
Proof.
  destruct m as [fires [[n0 k0] v0]]. unfold target. simpl. intros H.
  destruct fires; [|reflexivity]. rewrite setdefault_bound_lookup.
  destruct (decide (n0 = n)) as [->|]; [|reflexivity].
  destruct k0, k; try reflexivity; congruence.
Qed.

Lemma apply_modifiers_other (ms : list (bool * (string * bound_kind * Q)))
    (nutr : gmap string Bounds) (n : string) (k : bound_kind) :
  (forall m, In m ms -> target m <> (n, k)) ->
  bound k (fold_left apply_modifier ms nutr !! n) = bound k (nutr !! n).
Proof.
  revert nutr. induction ms as [|m ms IH]; intros nutr H; [reflexivity|].
  cbn [fold_left]. rewrite IH by (intros m' Hm'; apply H; right; exact Hm').
  apply apply_modifier_other, H. left. reflexivity.
Qed.

Lemma apply_modifiers_target (ms : list (bool * (string * bound_kind * Q)))
    (nutr : gmap string Bounds) (fires : bool) (n : string) (k : bound_kind)
    (v : Q) :
  List.NoDup (map target ms) -> In (fires, (n, k, v)) ms ->
  bound k (fold_left apply_modifier ms nutr !! n)
  = if fires then Some v else bound k (nutr !! n).
Proof.
  revert nutr. induction ms as [|m ms IH]; intros nutr Hnd Hin; [destruct Hin|].
  cbn [map] in Hnd. inversion Hnd as [|? ? Hm Hms]; subst.
  cbn [fold_left]. destruct Hin as [->|Hin].
  - rewrite apply_modifiers_other.
    + cbn [apply_modifier]. destruct fires; [|reflexivity].
      rewrite setdefault_bound_lookup. destruct (decide (n = n)); [|congruence].
      destruct k; reflexivity.
    + intros m' Hm' E. apply Hm. change (target (fires, (n, k, v))) with (n, k).
      rewrite <- E. apply in_map. exact Hm'.
  - rewrite (IH _ Hms Hin). destruct fires; [reflexivity|].
    apply apply_modifier_other. intros E. apply Hm.
    change (n, k) with (target (false, (n, k, v))) in E. rewrite E.
    apply in_map. exact Hin.
Qed.

Lemma modifiers_targets (query : string) :
  map target (modifiers query)
  = [("protein", Min); ("calories", Min); ("fat", Min); ("protein", Max);
     ("fat", Max); ("calories", Max); ("sodium", Max); ("sugar", Max)].
Proof. reflexivity. Qed.

Lemma modifiers_NoDup (query : string) :
  List.NoDup (map target (modifiers query)).
Proof.
  rewrite modifiers_targets.
  repeat (apply List.NoDup_cons;
          [simpl; intros H;
           repeat (destruct H as [H|H]; [discriminate|]); exact H|]).
  apply List.NoDup_nil.
Qed.









End NutritionConstraints.

(** ** Scores and added ingredients *)

Section ScoreMonotone.

Import Models RecipeMatcher Requiring.

Lemma sumZ_app (a b : list Z) : sumZ (a ++ b) = sumZ a + sumZ b.
Proof. unfold sumZ. induction a as [|x a IH]; simpl; lia. Qed.

Lemma sumZ_nonneg (l : list Z) : (forall x, In x l -> 0 <= x) -> 0 <= sumZ l.
Proof.
  unfold sumZ. induction l as [|x l IH]; simpl; intros H; [lia|].
  specialize (H x (or_introl eq_refl)) as Hx.
  assert (0 <= fold_right Z.add 0 l) by (apply IH; intros y Hy; apply H; right; exact Hy).
  lia.
Qed.

Lemma ingredient_points_nonneg (t s ing : string) :
  0 <= ingredient_points t s ing.
Proof.
  unfold ingredient_points.
  destruct (Py.contains (Py.lower ing) t), (Py.contains (Py.lower ing) s);
    try lia;
    destruct (Py.index (Py.lower ing) (Py.split t)) as [[|[|[|p]]]|]; simpl; lia.
Qed.

Lemma ingredient_points_present (t s ing : string) :
  Py.contains (Py.lower ing) t = true \/ Py.contains (Py.lower ing) s = true ->
  10 <= ingredient_points t s ing.
Proof.
  unfold ingredient_points. intros H.
  destruct (Py.contains (Py.lower ing) t), (Py.contains (Py.lower ing) s);
    try (destruct H; discriminate); try lia;
    destruct (Py.index (Py.lower ing) (Py.split t)) as [[|[|[|p]]]|]; simpl; lia.
Qed.

Lemma proximity_points_nonneg (ws : list string) (d ing : string) :
  0 <= proximity_points ws d ing.
Proof.
  unfold proximity_points.
  destruct (Py.index d ws), (Py.index (Py.lower ing) ws); try lia.
  destruct (Z.abs (Z.of_nat n - Z.of_nat n0) <=? 2); lia.
Qed.

Lemma proximity_sum_nonneg (ws : list string) (d : string) (l : list string) :
  0 <= sumZ (map (proximity_points ws d) l).
Proof.
  apply sumZ_nonneg. intros x Hx. apply in_map_iff in Hx.
  destruct Hx as (ing & <- & _). apply proximity_points_nonneg.
Qed.

(** The combo bonus, without the case split on the empty list. *)
Lemma combo_bonus_eq (t : string) (dish : option string) (l : list string) :
  combo_bonus t dish l
  = match Py.truthy dish with
    | Some d =>
        if Py.contains (Py.lower d) t
           && (0 <? length (List.filter
                              (fun i => Py.contains (Py.lower i) t) l))%nat
        then 20 + (if Py.mem (Py.lower d) (Py.split t)
                   then sumZ (map (proximity_points (Py.split t) (Py.lower d)) l)
                   else 0)
        else 0
    | None => 0
    end.
Proof.
  unfold combo_bonus. destruct (Py.truthy dish) as [d|]; [|reflexivity].
  destruct l as [|x l]; [|reflexivity].
  simpl. now rewrite andb_false_r.
Qed.

Lemma filter_length_insert {A} (p : A -> bool) (l1 l2 : list A) (x : A) :
  (length (List.filter p (l1 ++ l2))
   <= length (List.filter p (l1 ++ x :: l2)))%nat.
Proof.
  rewrite !List.filter_app, !List.length_app. simpl. destruct (p x); simpl; lia.
Qed.

Lemma combo_bonus_insert (t : string) (dish : option string)
    (l1 l2 : list string) (ing : string) :
  combo_bonus t dish (l1 ++ l2) <= combo_bonus t dish (l1 ++ ing :: l2).
Proof.
  rewrite !combo_bonus_eq. destruct (Py.truthy dish) as [d|]; [|lia].
  pose proof (filter_length_insert
                (fun i => Py.contains (Py.lower i) t) l1 l2 ing) as Hc.
  pose proof (proximity_sum_nonneg (Py.split t) (Py.lower d) (l1 ++ l2)) as Hp.
  pose proof (proximity_sum_nonneg (Py.split t) (Py.lower d)
                (l1 ++ ing :: l2)) as Hp'.
  assert (Hs : sumZ (map (proximity_points (Py.split t) (Py.lower d))
                         (l1 ++ l2))
               <= sumZ (map (proximity_points (Py.split t) (Py.lower d))
                            (l1 ++ ing :: l2))).
  { rewrite !map_app, !sumZ_app. cbn [map].
    change (sumZ (proximity_points (Py.split t) (Py.lower d) ing
                  :: map (proximity_points (Py.split t) (Py.lower d)) l2))
      with (proximity_points (Py.split t) (Py.lower d) ing
            + sumZ (map (proximity_points (Py.split t) (Py.lower d)) l2)).
    pose proof (proximity_points_nonneg (Py.split t) (Py.lower d) ing). lia. }
  set (na := length (List.filter (fun i => Py.contains (Py.lower i) t)
                                 (l1 ++ l2))) in *.
  set (nb := length (List.filter (fun i => Py.contains (Py.lower i) t)
                                 (l1 ++ ing :: l2))) in *.
  destruct (Py.contains (Py.lower d) t); simpl; [|lia].
  destruct (0 <? na)%nat eqn:Ea.
  - apply Nat.ltb_lt in Ea.
    assert (Eb : (0 <? nb)%nat = true) by (apply Nat.ltb_lt; lia).
    rewrite Eb. destruct (Py.mem (Py.lower d) (Py.split t)); lia.
  - destruct (0 <? nb)%nat; [|lia].
    destruct (Py.mem (Py.lower d) (Py.split t)); lia.
Qed.

Lemma required_scoring_insert (t s : string) (l1 l2 : list string)
    (ing : string) :
  required_ingredients_scoring t s (l1 ++ ing :: l2)
  = required_ingredients_scoring t s (l1 ++ l2) + ingredient_points t s ing.
Proof.
  unfold required_ingredients_scoring. rewrite !map_app, !sumZ_app. cbn [map].
  change (sumZ (ingredient_points t s ing :: map (ingredient_points t s) l2))
    with (ingredient_points t s ing + sumZ (map (ingredient_points t s) l2)).
  lia.
Qed.


(** In database mode a further required ingredient that the recipe has,
    in its title or in its search text, raises the score by at least
    10. *)
Lemma recipe_score_raised_by_present (r : Recipe) (pq : ParsedQuery)
    (l1 l2 : list string) (ing : string) :
  Py.contains (Py.lower ing) (Py.lower (title r)) = true
  \/ Py.contains (Py.lower ing) (Py.lower (Py.or_empty (search_text r))) = true ->
  calculate_recipe_score r (with_ingredients pq (l1 ++ l2)) + 10
  <= calculate_recipe_score r (with_ingredients pq (l1 ++ ing :: l2)).
Proof.
  intros H. unfold calculate_recipe_score, with_ingredients.
  cbn [dish_name pq_ingredients pq_categories meal_type nutrition].
  rewrite required_scoring_insert.
  pose proof (ingredient_points_present _ _ ing H).
  pose proof (combo_bonus_insert (Py.lower (title r)) (dish_name pq) l1 l2 ing).
  lia.
Qed.

End ScoreMonotone.

Section RuleScoreMonotone.

Import MemoryMatcher Requiring.

#[local] Open Scope Q_scope.

Lemma ratio_succ (m n : nat) :
  ratio m (S n) == Z.of_nat m # Pos.of_succ_nat n.
Proof.
  unfold ratio. rewrite (Qmake_Qdiv (Z.of_nat m) (Pos.of_succ_nat n)).
  rewrite Zpos_P_of_succ_nat, <- Nat2Z.inj_succ. reflexivity.
Qed.

Lemma ratio_nonneg (m n : nat) : 0 <= ratio m n.
Proof.
  destruct n as [|n].
  - unfold ratio. simpl. unfold Qdiv, Qinv. simpl. rewrite Qmult_0_r.
    apply Qle_refl.
  - rewrite ratio_succ. unfold Qle. simpl. lia.
Qed.

(** One more match out of one more ingredient does not lower the matched
    fraction. *)
Lemma ratio_grows (m n : nat) :
  (m <= n)%nat -> ratio m n <= ratio (S m) (S n).
Proof.
  intros H. destruct n as [|n].
  - assert (m = 0%nat) by lia. subst. apply ratio_nonneg.
  - rewrite !ratio_succ. unfold Qle. cbn [Qnum Qden].
    rewrite !Zpos_P_of_succ_nat, !Nat2Z.inj_succ. nia.
Qed.

Lemma count_insert {A} (p : A -> bool) (l1 l2 : list A) (x : A) :
  p x = true -> count p (l1 ++ x :: l2) = S (count p (l1 ++ l2)).
Proof.
  intros H. unfold count.
  rewrite !List.filter_app, !List.length_app. simpl. rewrite H. simpl. lia.
Qed.

Lemma count_le_length {A} (p : A -> bool) (l : list A) :
  (count p l <= length l)%nat.
Proof. apply List.filter_length_le. Qed.

(** In the in-memory mode a further required ingredient that occurs in
    the text of a recipe does not lower the score of the recipe before
    normalisation. *)
Lemma rule_score_not_lowered_by_present (pq : ParsedQuery)
    (recipe : MemRecipe) (l1 l2 : list string) (ing : string) :
  Py.contains (Py.lower ing) (Py.lower (recipe_to_text recipe)) = true ->
  rule_score (with_ingredients pq (l1 ++ l2)) recipe
  <= rule_score (with_ingredients pq (l1 ++ ing :: l2)) recipe.
Proof.
  intros H. unfold rule_score, with_ingredients.
  cbn [dish_name pq_ingredients pq_categories meal_type].
  repeat apply Qplus_le_compat; try apply Qle_refl.
  rewrite (count_insert _ l1 l2 ing H).
  replace (length (l1 ++ ing :: l2)) with (S (length (l1 ++ l2)))
    by (rewrite !List.length_app; simpl; lia).
  assert (G : (3 # 10) * ratio (count
                 (fun i => Py.contains (Py.lower i)
                             (Py.lower (recipe_to_text recipe))) (l1 ++ l2))
                 (length (l1 ++ l2))
              <= (3 # 10) * ratio (S (count
                   (fun i => Py.contains (Py.lower i)
                               (Py.lower (recipe_to_text recipe))) (l1 ++ l2)))
                   (S (length (l1 ++ l2)))).
  { apply Qmult_le_l; [reflexivity|]. apply ratio_grows, count_le_length. }
  destruct (l1 ++ l2)%list as [|y l] eqn:E.
  - destruct (l1 ++ ing :: l2)%list eqn:E'; [destruct l1; discriminate|].
    cbn [nonempty]. apply Qmult_le_0_compat; [discriminate|apply ratio_nonneg].
  - destruct (l1 ++ ing :: l2)%list eqn:E'; [destruct l1; discriminate|].
    cbn [nonempty]. exact G.
Qed.



End RuleScoreMonotone.

Section ScoreMonotoneClaim.

Import Models MemoryMatcher Requiring.

#[local] Open Scope Q_scope.



End ScoreMonotoneClaim.

Section RuleScoresNormalised.

Import MemoryMatcher.

#[local] Open Scope Q_scope.

Lemma Qnonneg_plus (a b : Q) : 0 <= a -> 0 <= b -> 0 <= a + b.
Proof.
  intros Ha Hb. change (0 + 0 <= a + b). apply Qplus_le_compat; assumption.
Qed.

Lemma rule_score_nonneg (pq : ParsedQuery) (recipe : MemRecipe) :
  0 <= rule_score pq recipe.
Proof.
  unfold rule_score. repeat apply Qnonneg_plus.
  - destruct (Py.truthy (dish_name pq)); [|apply Qle_refl].
    destruct (Py.contains _ _); [discriminate|].
    destruct (Py.contains _ _); [discriminate | apply Qle_refl].
  - destruct (nonempty (pq_ingredients pq)); [|apply Qle_refl].
    apply Qmult_le_0_compat; [discriminate | apply ratio_nonneg].
  - destruct (nonempty (pq_categories pq)); [|apply Qle_refl].
    apply Qmult_le_0_compat; [discriminate | apply ratio_nonneg].
  - destruct (Py.truthy (meal_type pq)); [|apply Qle_refl].
    destruct (Py.contains _ _); [discriminate | apply Qle_refl].
Qed.

Lemma Qmax_ge_l (a b : Q) : a <= Qmax a b.
Proof.
  unfold Qmax. destruct (Qle_bool a b) eqn:E; [|apply Qle_refl].
  apply Qle_bool_iff. exact E.
Qed.

Lemma Qmax_ge_r (a b : Q) : b <= Qmax a b.
Proof.
  unfold Qmax. destruct (Qle_bool a b) eqn:E; [apply Qle_refl|].
  apply Qlt_le_weak, Qnot_le_lt. intros H. apply Qle_bool_iff in H. congruence.
Qed.

Lemma fold_Qmax_ge (l : list Q) (x : Q) :
  x <= fold_left Qmax l x /\ forall y, In y l -> y <= fold_left Qmax l x.
Proof.
  revert x. induction l as [|z l IH]; intros x; simpl.
  - split; [apply Qle_refl | intros y []].
  - destruct (IH (Qmax x z)) as [H1 H2]. split.
    + eapply Qle_trans; [apply Qmax_ge_l | exact H1].
    + intros y [<-|Hy]; [|apply H2; exact Hy].
      eapply Qle_trans; [apply Qmax_ge_r | exact H1].
Qed.

Lemma np_max_ge (l : list Q) (top : Q) :
  np_max l = Some top -> forall y, In y l -> y <= top.
Proof.
  destruct l as [|x l]; [discriminate|]. simpl. intros [= <-] y [<-|Hy].
  - exact (proj1 (fold_Qmax_ge l x)).
  - exact (proj2 (fold_Qmax_ge l x) y Hy).
Qed.


Lemma calculate_rule_scores_none (recipes : list MemRecipe)
    (pq : ParsedQuery) :
  calculate_rule_scores recipes pq = None <-> recipes = [].
Proof.
  unfold calculate_rule_scores. destruct recipes as [|r recipes]; simpl.
  - split; reflexivity.
  - split; discriminate.
Qed.


End RuleScoresNormalised.

(** ** The parser: dish name, mentions and negations *)

Section ParserFacts.

Import Vocabulary QueryParser.

Lemma find_first {A} (p : A -> bool) (l : list A) (x : A) :
  List.find p l = Some x ->
  exists pre post, l = (pre ++ x :: post)%list /\ p x = true
                   /\ forall y, In y pre -> p y = false.
Proof.
  induction l as [|y l IH]; simpl; [discriminate|].
  destruct (p y) eqn:E.
  - intros [= ->]. exists [], l. split; [reflexivity|]. split; [exact E|].
    intros z [].
  - intros H. destruct (IH H) as (pre & post & -> & Hx & Hpre).
    exists (y :: pre), post. split; [reflexivity|]. split; [exact Hx|].
    intros z [<-|Hz]; [exact E | apply Hpre; exact Hz].
Qed.


Variable correct : string -> string * list (string * string).


End ParserFacts.

Section LoopsOverMembers.

Context {A B : Type} (P : A -> Prop) (f : A -> B -> A).

(** As [fold_left_invariant], the body being run on the elements of the
    list only. *)
Lemma fold_left_invariant_in (l : list B) (a : A) :
  P a -> (forall a b, In b l -> P a -> P (f a b)) -> P (fold_left f l a).
Proof.
  revert a. induction l as [|b l IH]; intros a Ha Hf; cbn [fold_left];
    [exact Ha|].
  apply IH.
  - apply Hf; [left; reflexivity | exact Ha].
  - intros a' b' Hb'. apply Hf. right. exact Hb'.
Qed.

End LoopsOverMembers.

Section ExcludedFromPhrases.

Import Vocabulary QueryParser.

Lemma resolve_item_match (item : string) (acc : list string) (x : string) :
  In x (resolve_item item acc) ->
  In x acc \/ Py.contains item x || Py.contains x item = true.
Proof.
  unfold resolve_item. generalize COMMON_INGREDIENTS. intros l H.
  apply grow_inv in H. destruct H as [H|[_ [acc' H2]]]; [left; exact H|].
  right. unfold resolves in H2. apply andb_prop in H2. tauto.
Qed.

Variable correct : string -> string * list (string * string).


End ExcludedFromPhrases.

Section ParserFactsExamples.

Import Vocabulary QueryParser Samples.



End ParserFactsExamples.

(** ** The similarity engine *)

Section Similarity.

Import Models SimilarityEngine.

#[local] Open Scope Q_scope.

Variable text_similarities : string -> list string -> list Q.
Variable norm : list Q -> Q.
Variable exp : Q -> Q.
Variable generate_similarity_reasons : Recipe -> Recipe -> Q -> Q -> list string.

Lemma in_insert_similar (x y : Similar) (l : list Similar) :
  In x (insert_desc y l) <-> x = y \/ In x l.
Proof.
  induction l as [|z l IH]; simpl.
  - intuition congruence.
  - destruct (Qle_bool (similarity_score z) (similarity_score y)); simpl;
      rewrite ?IH; intuition congruence.
Qed.

Lemma in_sort_similar (x : Similar) (l : list Similar) :
  In x (sort_desc l) <-> In x l.
Proof.
  unfold sort_desc. induction l as [|y l IH]; simpl; [tauto|].
  rewrite in_insert_similar, IH. intuition congruence.
Qed.

Lemma candidate_inv (db : list Recipe) (target : Recipe) (limit : nat)
    (r : Recipe) :
  In r (get_candidate_recipes db target limit) ->
  In r db /\ id r <> id target
  /\ forall c, calories target = Some c -> 0 < c ->
       exists v, calories r = Some v /\ c * (1 # 2) <= v /\ v <= c * (3 # 2).
Proof.
  unfold get_candidate_recipes. intros H. apply in_firstn, filter_In in H.
  destruct H as [Hdb H]. apply andb_prop in H. destruct H as [H Hcal].
  apply andb_prop in H. destruct H as [Hid _].
  split; [exact Hdb|]. split.
  - apply negb_true_iff, Z.eqb_neq in Hid. exact Hid.
  - intros c Ec Hc. rewrite Ec in Hcal.
    assert (Hb : MemoryMatcher.Qlt_bool 0 c = true).
    { unfold MemoryMatcher.Qlt_bool. apply negb_true_iff.
      destruct (Qle_bool c 0) eqn:E; [|reflexivity].
      apply Qle_bool_iff in E. exfalso. exact (Qlt_not_le _ _ Hc E). }
    rewrite Hb in Hcal. destruct (calories r) as [v|]; [|discriminate].
    exists v. split; [reflexivity|]. simpl in Hcal.
    destruct (Qle_bool (c * (1 # 2)) v) eqn:E1; [|discriminate].
    destruct (Qle_bool v (c * (3 # 2))) eqn:E2; [|discriminate].
    split; apply Qle_bool_iff; assumption.
Qed.

Lemma find_similar_recipes_inv (db : list Recipe) (target : Recipe)
    (limit : nat) (min_score : Q) (s : Similar) :
  In s (find_similar_recipes text_similarities norm exp
          generate_similarity_reasons db target limit min_score) ->
  In (sim_recipe s) (get_candidate_recipes db target (limit * 10))
  /\ min_score <= similarity_score s.
Proof.
  unfold find_similar_recipes.
  destruct (get_candidate_recipes db target (limit * 10)) as [|c cs] eqn:E;
    [intros []|].
  intros H. apply in_sort_similar, in_flat_map in H.
  destruct H as ([i r] & Hin & Hs). apply in_combine_r in Hin.
  match type of Hs with
  | In s (if ?c then _ else _) => destruct c eqn:Eb
  end; [|destruct Hs].
  destruct Hs as [<-|[]]. simpl. split; [exact Hin|].
  apply Qle_bool_iff. exact Eb.
Qed.



End Similarity.

Section SimilarityExamples.

Import Models SimilarityEngine Samples MoreSamples.


(** The stew is similar to the soup: it shares the word "chicken" and
    its 350 calories are within the band around 300. *)
Example chicken_soup_neighbours :
  map (fun s => id (sim_recipe s))
      (find_similar flat_similarity (fun _ => 0%Q) (fun _ => 1%Q) no_reasons
         pantry 1 5 (3 # 10))
  = [4%Z].
Proof. vm_compute. reflexivity. Qed.

End SimilarityExamples.

(** ** The meal planner: candidates and selection *)

Section MealCandidates.

Import Models MealPlanner PlanView.

#[local] Open Scope Q_scope.

Lemma in_insert_by_key (x y : Q * Recipe) (l : list (Q * Recipe)) :
  In x (insert_by_key y l) <-> x = y \/ In x l.
Proof.
  induction l as [|z l IH]; simpl.
  - intuition congruence.
  - destruct (Qle_bool (fst y) (fst z)); simpl; rewrite ?IH;
      intuition congruence.
Qed.

Lemma in_order_by_random (key : nat -> Q) (rows : list Recipe) (r : Recipe) :
  In r (order_by_random key rows) -> In r rows.
Proof.
  unfold order_by_random. intros H. apply in_map_iff in H.
  destruct H as ([k r'] & <- & H). simpl.
  assert (G : forall l, In (k, r') (fold_right insert_by_key [] l) ->
                        In (k, r') l).
  { induction l as [|y l IH]; simpl; [tauto|]. intros Hin.
    apply in_insert_by_key in Hin. destruct Hin as [->|Hin];
      [left; reflexivity | right; apply IH; exact Hin]. }
  apply G in H. exact (in_combine_r _ _ _ _ H).
Qed.

(** A row a lookup returns is a row of the table that was not placed
    before and has a positive calorie value. *)
Lemma get_meal_candidates_fresh (db : list Recipe) (key : nat -> Q)
    (constraints : Constraints) (used : gset Z) (limit : nat) (r : Recipe) :
  In r (get_meal_candidates db key constraints used limit) ->
  In r db /\ (id r ∉ used)
  /\ (exists v, calories r = Some v /\ 0 < v)
  /\ candidate_filter constraints used r = true.
Proof.
  unfold get_meal_candidates.
  intros H. apply in_firstn, in_order_by_random, filter_In in H.
  destruct H as [Hdb Hf]. pose proof Hf as H. unfold candidate_filter in H.
  repeat (apply andb_prop in H; destruct H as [H ?]).
  split; [exact Hdb|]. split; [|split; [|exact Hf]].
  - apply negb_true_iff, bool_decide_eq_false in H. exact H.
  - destruct (calories r) as [v|]; [|discriminate]. exists v.
    split; [reflexivity|].
    match goal with
    | X : Sql.holds (Sql.gt (Some v) 0) = true |- _ => simpl in X;
        apply Qnot_le_lt; intros Hle; apply Qle_bool_iff in Hle;
        rewrite Hle in X; discriminate
    end.
Qed.


Lemma best_of_member (used : gmap string nat) (w : Q) (draw : nat -> Q)
    (candidates : list Recipe) (i : nat) (best : option Recipe * Q)
    (r : Recipe) :
  fst (best_of used w draw i candidates best) = Some r ->
  fst best = Some r \/ In r candidates.
Proof.
  revert i best. induction candidates as [|c cs IH]; intros i best H;
    simpl in H; [left; exact H|].
  apply IH in H. destruct H as [H|H]; [|right; right; exact H].
  destruct (Qlt_bool (snd best) _); [|left; exact H].
  simpl in H. injection H as <-. right. left. reflexivity.
Qed.

Lemma select_recipe_member (pick : nat) (draw : nat -> Q)
    (candidates : list Recipe) (used : gmap string nat) (w : Q) (r : Recipe) :
  select_recipe_with_variety pick draw candidates used w = Some r ->
  In r candidates.
Proof.
  unfold select_recipe_with_variety.
  destruct candidates as [|c cs]; [discriminate|].
  destruct (Qlt_bool w (1 # 10)).
  - intros E. exact (nth_error_In _ _ E).
  - destruct (fst (best_of used w draw 0 (c :: cs) (None, - (1))))
      as [b|] eqn:E; intros [= <-].
    + apply best_of_member in E. destruct E as [E|E]; [discriminate | exact E].
    + left. reflexivity.
Qed.


End MealCandidates.

(** ** The meal planner: the plan *)

Section MealPlan.

Import Models MealPlanner PlanView.

#[local] Open Scope Q_scope.

Variable db : list Recipe.
Variable rnd : Randomness.
Variable preferences : Preferences.
Variable nutrition_goals : gmap string Q.
Variable meals_per_day : nat.
Variable variety_weight : Q.
Variable round1 : Q -> Q.

Let slot_step :=
  fill_slot db rnd preferences nutrition_goals meals_per_day variety_weight.
Let day_step :=
  fill_day db rnd preferences nutrition_goals meals_per_day variety_weight
    round1.
Let plan :=
  generate_plan db rnd preferences nutrition_goals meals_per_day
    variety_weight round1.
Let distribution := get_meal_type_distribution meals_per_day.

(** What a slot does to the tracking state: nothing, or it places one
    recipe drawn from a lookup that excluded the used ids. *)
Lemma fill_slot_cases (day_num : nat) (t : Tracking) (slot : nat * string) :
  slot_step day_num t slot = t
  \/ exists selected,
       In selected db /\ (id selected ∉ used_recipe_ids t)
       /\ (exists v, calories selected = Some v /\ 0 < v)
       /\ used_recipe_ids (slot_step day_num t slot)
          = {[ id selected ]} ∪ used_recipe_ids t
       /\ day_meals (slot_step day_num t slot)
          = (day_meals t
             ++ [{| meal_recipe := selected; meal_type := snd slot;
                    meal_number := S (fst slot) |}])%list
       /\ day_calories (slot_step day_num t slot)
          = day_calories t + or_zero (calories selected)
       /\ day_protein (slot_step day_num t slot)
          = day_protein t + or_zero (protein selected).
Proof.
  destruct slot as [meal_idx mt]. unfold slot_step, fill_slot.
  match goal with
  | |- context [select_recipe_with_variety ?p ?d ?c ?u ?w] =>
      destruct (select_recipe_with_variety p d c u w) as [selected|] eqn:Es;
      [pose proof (select_recipe_member _ _ _ _ _ _ Es) as Hsel|]
  end; [|left; reflexivity].
  right. exists selected.
  assert (Hc : In selected db /\ (id selected ∉ used_recipe_ids t)
               /\ exists v, calories selected = Some v /\ 0 < v).
  { match type of Hsel with
    | In _ (match ?c with [] => ?fallback | _ :: _ => _ end) =>
        destruct c as [|c0 cs] eqn:E
    end.
    - apply get_meal_candidates_fresh in Hsel. tauto.
    - rewrite <- E in Hsel. apply get_meal_candidates_fresh in Hsel. tauto. }
  destruct Hc as (H1 & H2 & H3). simpl. repeat split; assumption.
Qed.


Lemma NoDup_snoc_id (l : list Z) (x : Z) :
  List.NoDup l -> ~ In x l -> List.NoDup (l ++ [x])%list.
Proof.
  induction l as [|y l IH]; simpl; intros H Hx.
  - apply List.NoDup_cons; [intros [] | apply List.NoDup_nil].
  - inversion H as [|? ? Hy Hl]; subst. apply List.NoDup_cons.
    + intros Hin. apply in_app_or in Hin. destruct Hin as [Hin|[->|[]]];
        [exact (Hy Hin) | apply Hx; left; reflexivity].
    + apply IH; [exact Hl | intros Hin; apply Hx; right; exact Hin].
Qed.

Lemma fill_slot_distinct (earlier : list Meal) (day_num : nat) (t : Tracking)
    (slot : nat * string) :
  distinct_and_used (earlier ++ day_meals t) (used_recipe_ids t) ->
  distinct_and_used (earlier ++ day_meals (slot_step day_num t slot))
    (used_recipe_ids (slot_step day_num t slot)).
Proof.
  intros [Hnd Hused].
  destruct (fill_slot_cases day_num t slot)
    as [->|(sel & _ & Hfresh & _ & Eu & Em & _)]; [split; assumption|].
  rewrite Eu, Em, app_assoc. split.
  - rewrite map_app. cbn [map]. unfold recipe_id at 2. cbn [meal_recipe].
    apply NoDup_snoc_id; [exact Hnd|].
    intros Hin. apply in_map_iff in Hin. destruct Hin as (m & E & Hm).
    apply Hfresh. rewrite <- E. apply Hused. exact Hm.
  - intros m Hm. apply in_app_or in Hm. destruct Hm as [Hm|[<-|[]]].
    + apply elem_of_union_r, Hused, Hm.
    + apply elem_of_union_l, elem_of_singleton. reflexivity.
Qed.

Lemma all_meals_snoc (days : list DayPlan) (d : DayPlan) :
  all_meals (days ++ [d]) = (all_meals days ++ meals d)%list.
Proof.
  unfold all_meals. rewrite flat_map_app. simpl. now rewrite app_nil_r.
Qed.

Lemma fill_day_distinct (st : list DayPlan * (gset Z * gmap string nat))
    (day_num : nat) :
  distinct_and_used (all_meals (fst st)) (fst (snd st)) ->
  distinct_and_used (all_meals (fst (day_step st day_num)))
    (fst (snd (day_step st day_num))).
Proof.
  destruct st as [days [used ings]]. unfold day_step, fill_day.
  cbn [fst snd]. intros H. rewrite all_meals_snoc. cbn [meals].
  apply (fold_left_invariant
           (fun t => distinct_and_used (all_meals days ++ day_meals t)
                       (used_recipe_ids t))).
  - cbn [day_meals used_recipe_ids]. rewrite app_nil_r. exact H.
  - intros t slot Ht. apply fill_slot_distinct. exact Ht.
Qed.


(** The slots of a day add meals and totals together. *)
Lemma fill_slot_totals (day_num : nat) (t : Tracking) (slot : nat * string) :
  day_calories t = sumQ (map meal_calories (day_meals t))
  /\ day_protein t = sumQ (map meal_protein (day_meals t)) ->
  day_calories (slot_step day_num t slot)
  = sumQ (map meal_calories (day_meals (slot_step day_num t slot)))
  /\ day_protein (slot_step day_num t slot)
     = sumQ (map meal_protein (day_meals (slot_step day_num t slot))).
Proof.
  intros [Hc Hp].
  destruct (fill_slot_cases day_num t slot)
    as [->|(sel & _ & _ & _ & _ & Em & Ec & Ep)]; [split; assumption|].
  rewrite Em, Ec, Ep, !map_app. unfold sumQ. rewrite !fold_left_app.
  cbn [map fold_left]. unfold sumQ in Hc, Hp. rewrite <- Hc, <- Hp.
  split; reflexivity.
Qed.

Lemma fill_slots_length (day_num : nat) (slots : list (nat * string))
    (t : Tracking) :
  (length (day_meals (fold_left (slot_step day_num) slots t))
   <= length (day_meals t) + length slots)%nat.
Proof.
  revert t. induction slots as [|slot slots IH]; intros t; cbn [fold_left].
  - simpl. lia.
  - specialize (IH (slot_step day_num t slot)).
    set (n := length (day_meals
                 (fold_left (slot_step day_num) slots
                    (slot_step day_num t slot)))) in *.
    clearbody n. cbn [length].
    destruct (fill_slot_cases day_num t slot)
      as [E|(sel & _ & _ & _ & _ & Em & _)].
    + rewrite E in IH. lia.
    + rewrite Em, List.length_app in IH. cbn [length] in IH. lia.
Qed.

(** What holds of every day of a plan. *)
Let well_formed_day (d : DayPlan) : Prop :=
  (length (meals d) <= length distribution)%nat
  /\ daily_calories d = round1 (sumQ (map meal_calories (meals d)))
  /\ daily_protein d = round1 (sumQ (map meal_protein (meals d))).

Lemma fill_day_shape (st : list DayPlan * (gset Z * gmap string nat))
    (day_num : nat) :
  exists d,
    fst (day_step st day_num) = (fst st ++ [d])%list
    /\ day d = day_num /\ well_formed_day d.
Proof.
  destruct st as [days [used ings]]. unfold day_step, fill_day.
  cbn [fst]. eexists. split; [reflexivity|]. split; [reflexivity|].
  unfold well_formed_day. cbn [meals daily_calories daily_protein]. split.
  - match goal with
    | |- (length (day_meals (fold_left ?f ?l ?t)) <= _)%nat =>
        pose proof (fill_slots_length day_num l t) as H
    end.
    unfold slot_step in H. cbn [day_meals length] in H.
    unfold enumerate in H. rewrite length_combine, length_seq in H.
    unfold distribution, enumerate. lia.
  - match goal with
    | |- round1 (day_calories ?t) = _ /\ _ =>
        assert (H : day_calories t = sumQ (map meal_calories (day_meals t))
                    /\ day_protein t
                       = sumQ (map meal_protein (day_meals t)))
    end.
    { apply (fold_left_invariant
               (fun t => day_calories t
                         = sumQ (map meal_calories (day_meals t))
                         /\ day_protein t
                            = sumQ (map meal_protein (day_meals t)))).
      - split; reflexivity.
      - intros t slot Ht. apply fill_slot_totals. exact Ht. }
    destruct H as [Hc Hp]. rewrite <- Hc, <- Hp. split; reflexivity.
Qed.

Lemma fill_days_shape (l : list nat)
    (st : list DayPlan * (gset Z * gmap string nat)) :
  Forall well_formed_day (fst st) ->
  map day (fst (fold_left day_step l st)) = (map day (fst st) ++ l)%list
  /\ Forall well_formed_day (fst (fold_left day_step l st)).
Proof.
  revert st. induction l as [|n l IH]; intros st Hst; cbn [fold_left].
  - rewrite app_nil_r. split; [reflexivity | exact Hst].
  - destruct (fill_day_shape st n) as (d & Ed & En & Hd).
    assert (Hst' : Forall well_formed_day (fst (day_step st n))).
    { rewrite Ed. apply Forall_app. split; [exact Hst|].
      constructor; [exact Hd | constructor]. }
    destruct (IH (day_step st n) Hst') as [E H]. split; [|exact H].
    rewrite E, Ed, map_app, <- app_assoc. cbn [map app]. rewrite En.
    reflexivity.
Qed.

(** The days of a plan are numbered 1 to [days]. *)
Lemma generate_plan_day_numbers (days : nat) :
  map day (plan days) = seq 1 days.
Proof.
  unfold plan, generate_plan.
  exact (proj1 (fill_days_shape (seq 1 days) ([], (∅, ∅)) (List.Forall_nil _))).
Qed.


End MealPlan.

(** ** The meal planner: the summary *)

Section GoalAchievement.

Import Models MealPlanner.

#[local] Open Scope Q_scope.

Variable round1 : Q -> Q.

Lemma positive_goal (g : Q) : Qlt_bool 0 g = true <-> 0 < g.
Proof.
  unfold Qlt_bool, MemoryMatcher.Qlt_bool. rewrite negb_true_iff. split.
  - intros H. apply Qnot_le_lt. intros Hle. apply Qle_bool_iff in Hle.
    congruence.
  - intros H. destruct (Qle_bool g 0) eqn:E; [|reflexivity].
    apply Qle_bool_iff in E. exfalso. exact (Qlt_not_le _ _ H E).
Qed.

(** The division of the goal loop is only reached with a positive
    divisor, and then it succeeds. *)
Lemma py_div_positive (a g : Q) : 0 < g -> py_div a g = Some (a / g).
Proof.
  intros H. unfold py_div. destruct (Qeq_bool g 0) eqn:E; [|reflexivity].
  apply Qeq_bool_iff in E. rewrite E in H. exfalso.
  exact (Qlt_irrefl 0 H).
Qed.

(** The entry the goal loop writes for a positive goal. *)
Let entry_of (avg : gmap string Q) (n : string) (g : Q) : Achievement :=
  {| target := g;
     actual := default 0 (avg !! n);
     achievement := round1 (default 0 (avg !! n) / g * 100) |}.

Lemma goal_entry_cases (avg : gmap string Q) (n : string) (g : Q) :
  goal_entry round1 avg n g
  = Some (if Qlt_bool 0 g then Some (entry_of avg n g) else None).
Proof.
  unfold goal_entry. destruct (Qlt_bool 0 g) eqn:E; [|reflexivity].
  rewrite (py_div_positive _ g (proj1 (positive_goal g) E)). reflexivity.
Qed.

(** The goal loop never fails, and it writes exactly the entries of the
    positive goals. *)
Lemma goal_loop (avg : gmap string Q) (l : list (string * Q)) :
  NoDup (l.*1) ->
  exists m,
    foldr (goal_step round1 avg) (Some ∅) l = Some m
    /\ forall n e, m !! n = Some e <->
         exists g, (n, g) ∈ l /\ 0 < g /\ e = entry_of avg n g.
Proof.
  induction l as [|[n1 g1] l IH]; intros Hnd.
  - exists ∅. split; [reflexivity|]. intros n e. rewrite lookup_empty. split.
    + discriminate.
    + intros (g & Hin & _). apply elem_of_nil in Hin. destruct Hin.
  - rewrite fmap_cons in Hnd. apply NoDup_cons in Hnd.
    destruct Hnd as [Hfresh Hnd]. destruct (IH Hnd) as (m & Em & Hm).
    cbn [foldr]. rewrite Em. unfold goal_step. cbn [fst snd].
    rewrite goal_entry_cases.
    assert (Hother : forall n g, (n, g) ∈ l -> n <> n1).
    { intros n g Hin ->. apply Hfresh.
      exact (list_elem_of_fmap_2 fst l (n1, g) Hin). }
    destruct (Qlt_bool 0 g1) eqn:E.
    + exists (<[n1 := entry_of avg n1 g1]> m). split; [reflexivity|].
      intros n e. destruct (decide (n1 = n)) as [<-|Hne].
      * rewrite lookup_insert_eq. split.
        -- intros [= <-]. exists g1. split; [left|].
           split; [apply positive_goal; exact E | reflexivity].
        -- intros (g & Hin & Hg & ->). apply elem_of_cons in Hin.
           destruct Hin as [[= ->]|Hin]; [reflexivity|].
           exfalso. exact (Hother n1 g Hin eq_refl).
      * rewrite lookup_insert_ne by exact Hne. rewrite Hm. split.
        -- intros (g & Hin & H). exists g. split; [right; exact Hin | exact H].
        -- intros (g & Hin & H). exists g. split; [|exact H].
           apply elem_of_cons in Hin. destruct Hin as [[= -> _]|Hin];
             [congruence | exact Hin].
    + exists m. split; [reflexivity|]. intros n e. rewrite Hm. split.
      * intros (g & Hin & H). exists g. split; [right; exact Hin | exact H].
      * intros (g & Hin & Hg & He). exists g. split; [|split; assumption].
        apply elem_of_cons in Hin. destruct Hin as [[= -> ->]|Hin];
          [|exact Hin].
        apply positive_goal in Hg. congruence.
Qed.

Lemma calculate_goal_achievement_spec (avg goals : gmap string Q) :
  exists m,
    calculate_goal_achievement round1 avg goals = Some m
    /\ forall n e, m !! n = Some e <->
         exists g, goals !! n = Some g /\ 0 < g /\ e = entry_of avg n g.
Proof.
  unfold calculate_goal_achievement.
  destruct (goal_loop avg (map_to_list goals) (NoDup_fst_map_to_list goals))
    as (m & Em & Hm).
  exists m. split; [exact Em|]. intros n e. rewrite Hm. split.
  - intros (g & Hin & H). exists g. split; [|exact H].
    apply elem_of_map_to_list. exact Hin.
  - intros (g & Hin & H). exists g. split; [|exact H].
    apply elem_of_map_to_list. exact Hin.
Qed.


End GoalAchievement.

Section GoalAchievementExamples.

Import Models MealPlanner MoreSamples.

#[local] Open Scope Q_scope.


(** The plan of one day with the chicken soup reaches 15% of a goal of
    2000 calories; the goal of 0 for sugar has no entry. *)
Example one_day_summary :
  match calculate_nutrition_summary no_rounding one_day two_goals with
  | Some s =>
      (exists e, goal_achievement s !! "calories" = Some e
                 /\ achievement e == 15)
      /\ goal_achievement s !! "sugar" = None
  | None => False
  end.
Proof.
  vm_compute. split; [|reflexivity].
  eexists. split; reflexivity.
Qed.

End GoalAchievementExamples.

(** ** The meal planner: the entry point *)

Section MealPlanEntry.

Import Models MealPlanner.

#[local] Open Scope Q_scope.

Variable round1 : Q -> Q.

Lemma clamp_range (lo hi x : Z) :
  (0 <= lo <= hi)%Z -> (Z.to_nat lo <= clamp lo hi x <= Z.to_nat hi)%nat.
Proof. unfold clamp. lia. Qed.


End MealPlanEntry.
